(** * OS.js server: request dispatch and authorization pipeline

    A shallow embedding of
    - [src/server/node/lib/instance.js], function [request] with its
      closures [_rejectResponse], [_resolveResponse], [_checkPermission],
      [_vfsCall], [_apiCall] and [_staticResponse];
    - [src/server/node/lib/auth.js], functions [checkPermission] (with its
      closures [checkApiPermission], [checkMountPermission] and
      [checkPackagePermission]) and [hasGroup];
    - [src/server/node/modules/auth/mysql.js], the authenticator module,
      with its [login];
    - [loadAPI] of [lib/instance.js], and [_filter] and [getBuildFiles] of
      the build script.

    Promises are modelled by their outcome (resolved, rejected, or never
    settled) together with the list of observable calls made on the way.
    The collaborators (authenticator, storage module, API methods, VFS
    layer) are taken through their interfaces: a call returns a promise
    whose outcome is a function of the arguments.  [JSON.parse] and the
    two functions of [lib/vfs.js] that the dispatcher calls are parameters
    of the development.  Logging is left out. *)

From Stdlib Require Import ZArith Ascii DecimalString.
From stdpp Require Import gmap strings list.

Local Open Scope string_scope.
Local Open Scope list_scope.

(** ** JavaScript values *)

(** The values that configuration files, session entries, request bodies
    and rejection reasons can hold.  Numbers are restricted to the integers
    a Number holds exactly.  [JObj] is a plain object (without a [toString]
    of its own), [JFun] is a function object, identified by its source
    text; [JError] is an [Error] instance with its [name] and [message].
    A string holds the UTF-8 encoding of its text. *)
#[warnings="-register-all"]
Inductive jsval : Type :=
| JUndefined
| JNull
| JBool (b : bool)
| JNum (n : Z)
| JStr (s : string)
| JArr (elems : list jsval)
| JObj (props : gmap string jsval)
| JFun (src : string)
| JError (name message : string).

(** What evaluating an expression can do: yield a value or throw. *)
Inductive completion (A : Type) : Type :=
| Normal (a : A)
| Throw (e : jsval).
Arguments Normal {A} a.
Arguments Throw {A} e.

Definition TypeError (message : string) : jsval := JError "TypeError" message.

(** [typeof v] *)
Definition js_typeof (v : jsval) : string :=
  match v with
  | JUndefined => "undefined"
  | JNull => "object"
  | JBool _ => "boolean"
  | JNum _ => "number"
  | JStr _ => "string"
  | JArr _ => "object"
  | JObj _ => "object"
  | JFun _ => "function"
  | JError _ _ => "object"
  end.

(** ToBoolean, as used by [if], [&&], [||] and [!]. *)
Definition js_truthy (v : jsval) : bool :=
  match v with
  | JUndefined | JNull => false
  | JBool b => b
  | JNum n => negb (n =? 0)%Z
  | JStr s => negb (String.eqb s "")
  | JArr _ | JObj _ | JFun _ | JError _ _ => true
  end.

(** [a === b].  Primitives compare by value.  Arrays, objects, functions
    and errors compare by reference; wherever the modelled code compares
    two of them they come from different allocations (a value parsed from
    the session against a value of the configuration), hence [false]. *)
Definition strict_equals (a b : jsval) : bool :=
  match a, b with
  | JUndefined, JUndefined => true
  | JNull, JNull => true
  | JBool x, JBool y => eqb x y
  | JNum x, JNum y => (x =? y)%Z
  | JStr x, JStr y => String.eqb x y
  | _, _ => false
  end.

Definition string_of_Z (n : Z) : string := NilZero.string_of_int (Z.to_int n).

Fixpoint join_with (sep : string) (l : list string) : string :=
  match l with
  | [] => ""
  | [s] => s
  | s :: rest => s +:+ sep +:+ join_with sep rest
  end.

(** *** [Number::toString] on integers

    The digits are the shortest decimal that reads back as the same
    Number; up to 21 digits are written out (filled up with zeros), more
    take the exponent form. *)

(** The Number nearest to a natural number: 53 significant bits, ties to
    even. *)
Definition nearest_double (a : Z) : Z :=
  let bits := (Z.log2 a + 1)%Z in
  if (bits <=? 53)%Z then a
  else
    let sh := (bits - 53)%Z in
    let q := Z.shiftr a sh in
    let r := (a - Z.shiftl q sh)%Z in
    let half := Z.shiftl 1 (sh - 1) in
    Z.shiftl (if (half <? r)%Z || ((r =? half)%Z && Z.odd q) then (q + 1)%Z else q) sh.

(** [(s, k, n)] with [k] as small as possible such that [s] has [k] digits
    and [s * 10 ^ (n - k)] reads back as [a]; of two such [s] the one
    nearer to [a], and the even one when they are equally near. *)
Definition shortest_digits (a : Z) : option (Z * Z * Z) :=
  let n0 := Z.of_nat (String.length (string_of_Z a)) in
  let try_k (k : Z) : option (Z * Z * Z) :=
    fold_left
      (fun best '(s, e) =>
         if ((0 <=? e) && (10 ^ (k - 1) <=? s) && (s <? 10 ^ k)
             && (nearest_double (s * 10 ^ e) =? a))%Z
         then
           match best with
           | None => Some (s, k, (e + k)%Z)
           | Some (s', _, n') =>
               let d := Z.abs (s * 10 ^ e - a) in
               let d' := Z.abs (s' * 10 ^ (n' - k) - a) in
               if (d <? d')%Z || ((d =? d')%Z && Z.even s && Z.odd s')
               then Some (s, k, (e + k)%Z) else best
           end
         else best)
      [ ((a / 10 ^ (n0 - k))%Z, (n0 - k)%Z);
        ((a / 10 ^ (n0 - k) + 1)%Z, (n0 - k)%Z);
        ((a / 10 ^ (n0 - k + 1))%Z, (n0 - k + 1)%Z);
        ((a / 10 ^ (n0 - k + 1) + 1)%Z, (n0 - k + 1)%Z) ]
      None in
  fold_left (fun found k => match found with Some _ => found | None => try_k k end)
            (map Z.of_nat (seq 1 17)) None.

Fixpoint zeros (n : nat) : string :=
  match n with
  | O => ""
  | S n' => String "0" (zeros n')
  end.

Definition Number_toString (z : Z) : string :=
  let a := nearest_double (Z.abs z) in
  let text :=
    if (a <? 2 ^ 53)%Z then string_of_Z a
    else if (2 ^ 1024 <=? a)%Z then "Infinity"
    else
      match shortest_digits a with
      | Some (s, k, n) =>
          if (n <=? 21)%Z then string_of_Z s +:+ zeros (Z.to_nat (n - k))
          else
            match string_of_Z s with
            | String d EmptyString => String d "e+" +:+ string_of_Z (n - 1)
            | String d rest => String d ("." +:+ rest) +:+ "e+" +:+ string_of_Z (n - 1)
            | EmptyString => EmptyString
            end
      | None => string_of_Z a
      end in
  if (z <? 0)%Z then "-" +:+ text else text.

(** [Error.prototype.toString]: the name and the message, joined by a
    colon unless one of them is empty. *)
Definition Error_toString (name message : string) : string :=
  if String.eqb name "" then message
  else if String.eqb message "" then name
  else name +:+ ": " +:+ message.

(** ToString: [String(v)], and the coercion applied to the argument of
    [JSON.parse] and of [String.prototype.indexOf]. *)
Fixpoint js_ToString (v : jsval) : string :=
  match v with
  | JUndefined => "undefined"
  | JNull => "null"
  | JBool true => "true"
  | JBool false => "false"
  | JNum n => Number_toString n
  | JStr s => s
  | JArr l =>
      join_with ","
        (map (fun x => match x with
                       | JUndefined | JNull => ""
                       | _ => js_ToString x
                       end) l)
  | JObj _ => "[object Object]"
  | JFun src => src
  | JError name message => Error_toString name message
  end.

(** [hay.indexOf(needle) !== -1] on strings: [needle] occurs in [hay]. *)
Fixpoint js_includes (needle hay : string) : bool :=
  String.prefix needle hay ||
  match hay with
  | EmptyString => false
  | String _ hay' => js_includes needle hay'
  end.

(** [recv.indexOf(x) !== -1].  Arrays search with [===], strings search for
    the substring [String(x)]; no other value has a callable [indexOf]
    (values here are plain data), so the call throws a [TypeError]. *)
Definition js_indexOf_found (recv x : jsval) : completion bool :=
  match recv with
  | JArr l => Normal (existsb (strict_equals x) l)
  | JStr s => Normal (js_includes (js_ToString x) s)
  | _ => Throw (TypeError "indexOf is not a function")
  end.

(** [l.every(f)] and [l.some(f)] for a callback that may throw. *)
Fixpoint js_every (f : jsval -> completion bool) (l : list jsval) : completion bool :=
  match l with
  | [] => Normal true
  | x :: rest =>
      match f x with
      | Normal true => js_every f rest
      | Normal false => Normal false
      | Throw e => Throw e
      end
  end.

Fixpoint js_some (f : jsval -> completion bool) (l : list jsval) : completion bool :=
  match l with
  | [] => Normal false
  | x :: rest =>
      match f x with
      | Normal true => Normal true
      | Normal false => js_some f rest
      | Throw e => Throw e
      end
  end.

(** *** Property lookup on plain objects *)

Definition native (name : string) : jsval :=
  JFun ("function " +:+ name +:+ "() { [native code] }").

(** The members every plain object inherits from [Object.prototype]. *)
Definition Object_prototype : gmap string jsval :=
  list_to_map
    (map (fun name => (name, native name))
       [ "constructor"; "toString"; "toLocaleString"; "valueOf";
         "hasOwnProperty"; "isPrototypeOf"; "propertyIsEnumerable";
         "__defineGetter__"; "__defineSetter__";
         "__lookupGetter__"; "__lookupSetter__" ]).

Definition inherited (key : string) : jsval :=
  if String.eqb key "__proto__" then JObj Object_prototype
  else default JUndefined (Object_prototype !! key).

(** [obj[key]] for an object literal or an object read by [JSON.parse]:
    an own property, else the inherited member, else [undefined]. *)
Definition obj_get (obj : gmap string jsval) (key : string) : jsval :=
  default (inherited key) (obj !! key).

(** [v.key] for a property name that no built-in prototype other than
    [Object.prototype] defines (used with [enabled] and [ro]). *)
Definition js_get (v : jsval) (key : string) : completion jsval :=
  match v with
  | JUndefined | JNull => Throw (TypeError ("Cannot read property '" +:+ key +:+ "'"))
  | JObj props => Normal (obj_get props key)
  | _ => Normal (inherited key)
  end.

(** The regular expression [/(^get\/)?/] of [_vfsCall]:
    [s.replace(/(^get\/)?/, '')] drops one leading [get/]. *)
Definition strip_get (s : string) : string :=
  if String.prefix "get/" s then String.substring 4 (String.length s - 4) s else s.

(** The regular expression of [_staticResponse]: an optional leading slash,
    the literal [packages/], a first group [.*/.*], a slash, and a second
    group [.*], anchored at the start only.  The dot matches anything but a
    line terminator and both groups are greedy, so on the first line of
    what follows [packages/] the first group is everything before the last
    slash (and must itself hold a slash) and the second group is what
    follows that slash. *)

(** The line terminators: LF, CR, and the separators U+2028 and U+2029,
    which UTF-8 writes as the bytes E2 80 A8 and E2 80 A9. *)
Definition line_terminators : list string :=
  [ String "010" EmptyString;
    String "013" EmptyString;
    String "226" (String "128" (String "168" EmptyString));
    String "226" (String "128" (String "169" EmptyString)) ].

(** A line terminator starts at the head of [s]. *)
Definition at_line_terminator (s : string) : bool :=
  existsb (fun t => String.prefix t s) line_terminators.

Fixpoint first_line (s : string) : string :=
  match s with
  | EmptyString => EmptyString
  | String c rest =>
      if at_line_terminator (String c rest) then EmptyString
      else String c (first_line rest)
  end.

Fixpoint split_last_slash (s : string) : option (string * string) :=
  match s with
  | EmptyString => None
  | String c rest =>
      match split_last_slash rest with
      | Some (a, b) => Some (String c a, b)
      | None => if Ascii.eqb c "/"%char then Some (EmptyString, rest) else None
      end
  end.

Definition drop_string (n : nat) (s : string) : string :=
  String.substring n (String.length s - n) s.

(** [http.path.match(...)] with that expression, as [(pmatch[1], pmatch[2])]. *)
Definition package_match (path : string) : option (string * string) :=
  let p := if String.prefix "/" path then drop_string 1 path else path in
  if String.prefix "packages/" p then
    match split_last_slash (first_line (drop_string 9 p)) with
    | Some (name, file) => if js_includes "/" name then Some (name, file) else None
    | None => None
    end
  else None.

(** ** Requests, collaborators and the instance *)

(** [ServerRequest], the [http] object handed to [request]. *)
Record ServerRequest : Type := {
  request_method : string;          (* http.request.method *)
  path : string;                    (* http.path *)
  endpoint : string;                (* http.endpoint *)
  data : jsval;                     (* http.data *)
  isfs : bool;                      (* http.isfs *)
  isapi : bool;                     (* http.isapi *)
  session_get : string -> jsval     (* http.session.get(key) *)
}.

(** The permission type: the string literals ['api'], ['fs'], ['package']
    given to [_checkPermission]. *)
Inductive ptype : Type := Tapi | Tfs | Tpackage.

Definition ptype_name (t : ptype) : string :=
  match t with Tapi => "api" | Tfs => "fs" | Tpackage => "package" end.

(** The [options] argument: [{method, args}] for ['fs'], [{method}] for
    ['api'], [{path}] for ['package']; an absent field is [None] or
    [JUndefined]. *)
Record Options : Type := {
  o_method : option string;
  o_args : jsval;
  o_path : option string
}.

(** [{path: pmatch[1]}] *)
Definition package_options (name : string) : Options :=
  {| o_method := None; o_args := JUndefined; o_path := Some name |}.

(** How a promise ends: fulfilled, rejected, or never settled. *)
Inductive outcome (A : Type) : Type :=
| Resolved (a : A)
| Rejected (reason : jsval)
| Pending.
Arguments Resolved {A} a.
Arguments Rejected {A} reason.
Arguments Pending {A}.

(** The authenticator module interface ([instance.AUTH]). *)
Record Authenticator : Type := {
  auth_initSession : ServerRequest -> outcome jsval;
  auth_checkSession : ServerRequest -> outcome jsval;
  auth_checkPermission : ServerRequest -> ptype -> Options -> outcome jsval
}.

(** The storage module interface ([instance.STORAGE]). *)
Record Storage : Type := {
  getBlacklist : jsval -> outcome jsval
}.

(** An API method: [(http, data) -> Promise]. *)
Definition Handler : Type := ServerRequest -> jsval -> outcome jsval.

(** The parts of [instance.CONFIG] the dispatcher reads: [api.groups]
    (present in a validated configuration), [vfs.mounts] and [vfs.groups]
    (each optional, [|| {}] in the source). *)
Record Config : Type := {
  api_groups : gmap string jsval;
  vfs_mounts : option (gmap string jsval);
  vfs_groups : option (gmap string jsval)
}.

(** The [instance] object of [lib/instance.js]. *)
Record ServerInstance : Type := {
  API : gmap string Handler;
  CONFIG : Config;
  AUTH : Authenticator;
  STORAGE : Storage;
  DIRS_root : string;
  DIST : string
}.

(** A dynamically typed argument: [hasGroup] is called once with the
    request and once, in [checkMountPermission], with the instance in the
    place of the request and the request in the place of the group list. *)
Inductive jsarg : Type :=
| Val (v : jsval)
| Req (http : ServerRequest)
| Inst (instance : ServerInstance).

Definition arg_typeof (a : jsarg) : string :=
  match a with Val v => js_typeof v | Req _ | Inst _ => "object" end.

Definition arg_truthy (a : jsarg) : bool :=
  match a with Val v => js_truthy v | Req _ | Inst _ => true end.

(** ** Observable calls *)

Inductive check : Type :=
| CkSession          (* AUTH.checkSession *)
| CkAuthenticator    (* AUTH.checkPermission *)
| CkApi              (* checkApiPermission *)
| CkMount            (* checkMountPermission *)
| CkPackage.         (* checkPackagePermission *)

Inductive verdict : Type := Passed | Failed | Hung.

Definition verdict_of {A} (o : outcome A) : verdict :=
  match o with Resolved _ => Passed | Rejected _ => Failed | Pending => Hung end.

(** What a spy on the collaborators and on the response sink records. *)
Inductive event : Type :=
| EvInitSession
| EvCheck (c : check) (v : verdict)
| EvGetBlacklist (username : jsval)                       (* storage *)
| EvVfsRequest (method : string) (args : jsval)           (* VFS transport *)
| EvApiHandler (name : string) (args : jsval)             (* API method *)
| EvRespondJson (error : jsval) (result : option jsval) (status : option Z)
    (* http.respond.json({error, result}, status); one call leaves [result]
       out and two leave the status to its default *)
| EvRespondError (err : jsval) (status : Z)               (* http.respond.error *)
| EvRespondFile (segments : list string).                 (* http.respond.file(_path.join(...)) *)

(** An asynchronous computation: the calls it makes, in order, and how
    its promise ends. *)
Definition Async (A : Type) : Type := list event * outcome A.

Definition ret {A} (a : A) : Async A := ([], Resolved a).
Definition reject {A} (reason : jsval) : Async A := ([], Rejected reason).
Definition emit (e : event) : Async jsval := ([e], Resolved JUndefined).
Definition await {A} (o : outcome A) : Async A := ([], o).

(** [p.then(f)]: [f] runs when [p] is fulfilled. *)
Definition and_then {A B} (p : Async A) (f : A -> Async B) : Async B :=
  match p with
  | (t, Resolved a) => let (t', o) := f a in (t ++ t', o)
  | (t, Rejected e) => (t, Rejected e)
  | (t, Pending) => (t, Pending)
  end.

(** [p.catch(h)]: [h] runs when [p] is rejected. *)
Definition catch {A} (p : Async A) (h : jsval -> Async A) : Async A :=
  match p with
  | (t, Rejected e) => let (t', o) := h e in (t ++ t', o)
  | other => other
  end.

(** [new Promise(function(resolve, reject) { p.then(resolve).catch(h) })]:
    the new promise is fulfilled with [p]; when [p] is rejected [h] runs
    and neither [resolve] nor [reject] is ever called. *)
Definition resolve_or {A B} (p : Async A) (h : jsval -> Async B) : Async A :=
  match p with
  | (t, Rejected e) => (t ++ fst (h e), Pending)
  | other => other
  end.

(** Record the verdict of a check once its promise has settled. *)
Definition checked {A} (c : check) (p : Async A) : Async A :=
  (fst p ++ [EvCheck c (verdict_of (snd p))], snd p).

Declare Scope async_scope.
Delimit Scope async_scope with async.
Notation "x <- p ;; q" := (and_then p (fun x => q))
  (at level 100, p at next level, right associativity) : async_scope.
Notation "p ;; q" := (and_then p (fun _ => q))
  (at level 100, right associativity) : async_scope.

Definition trace {A} (p : Async A) : list event := fst p.
Definition result {A} (p : Async A) : outcome A := snd p.

(** The callback of a [.then] that starts [p] and returns [undefined]
    without waiting for it. *)
Definition fire {A} (p : Async A) : Async jsval := (fst p, Resolved JUndefined).

(** Sequencing of expressions that may throw. *)
Definition cbind {A B} (c : completion A) (f : A -> completion B) : completion B :=
  match c with
  | Normal a => f a
  | Throw e => Throw e
  end.

(** ** The authenticator module [modules/auth/mysql.js] *)

Module mysql.

Definition initSession (http : ServerRequest) : outcome jsval :=
  Resolved (JBool true).

Definition checkPermission (http : ServerRequest) (type : ptype) (options : Options)
  : outcome jsval :=
  Resolved (JBool true).

Definition checkSession (http : ServerRequest) : outcome jsval :=
  if js_truthy (session_get http "username") then Resolved JUndefined
  else Rejected (JStr "You have no OS.js Session, please log in!").

Definition exports : Authenticator :=
  {| auth_initSession := initSession;
     auth_checkSession := checkSession;
     auth_checkPermission := checkPermission |}.

End mysql.

Section Server.

(** [JSON.parse] applied to a text: the parsed value, or [None] when it
    throws a [SyntaxError]. *)
Variable JSON_parse : string -> option jsval.

(** [parseVirtualPath(args, http).protocol] of [lib/vfs.js]: the protocol
    of the virtual path named by the arguments, unless the call throws. *)
Variable parseVirtualPath : jsval -> ServerRequest -> completion string.

(** [request(http, method, args)] of [lib/vfs.js]: the promise of the VFS
    transport operation. *)
Variable vfs_request : ServerRequest -> string -> jsval -> outcome jsval.

(** The module-level [instance] of [lib/instance.js]. *)
Variable instance : ServerInstance.

(** *** [lib/auth.js] *)

(** The [try] block of [hasGroup]:
    [userGroups = JSON.parse(http.session.get('groups')) || []], with
    [userGroups] left at [[]] when anything in it throws (which reading
    [session.get] off something that is not a request does). *)
Definition userGroups (http : jsarg) : jsval :=
  match http with
  | Req h =>
      match JSON_parse (js_ToString (session_get h "groups")) with
      | Some v => if js_truthy v then v else JArr []
      | None => JArr []
      end
  | _ => JArr []
  end.

(** [hasGroup(http, groupList, all)].  The re-wrapping of a [groupList]
    that is not an array (third [if] of the source) is unreachable after
    the first [if] and is left out. *)
Definition hasGroup (http groupList all : jsarg) : completion bool :=
  match groupList with
  | Val (JArr (g :: rest)) =>
      let userGroups := userGroups http in
      cbind (js_indexOf_found userGroups (JStr "admin")) (fun admin =>
      if admin then Normal true
      else
        let callback name := js_indexOf_found userGroups name in
        if String.eqb (arg_typeof all) "undefined" || arg_truthy all
        then js_every callback (g :: rest)
        else js_some callback (g :: rest))
  | _ => Normal true
  end.

Section checkPermission.

Variables (http : ServerRequest) (type : ptype) (options : Options).

Let groups := api_groups (CONFIG instance).
Let username := session_get http "username".

(** The [checks] array built by [checkApiPermission]. *)
Definition api_checks : list jsval :=
  match type with
  | Tfs => [JStr (ptype_name type)]
  | _ =>
      match o_method options with
      | Some method =>
          if negb (String.eqb method "")
             && negb (String.eqb (js_typeof (obj_get groups method)) "undefined")
          then [obj_get groups method]
          else []
      | None => []
      end
  end.

Definition checkApiPermission : Async jsval :=
  checked CkApi
    match hasGroup (Req http) (Val (JArr api_checks)) (Val JUndefined) with
    | Normal true => ret JUndefined
    | Normal false => reject (JStr "Access denied!")
    | Throw e => reject e
    end.

Definition writeableMap : list string :=
  ["upload"; "write"; "delete"; "copy"; "move"; "mkdir"].

(** [mount.enabled === false ||
     (mount.ro === true && writeableMap.indexOf(options.method) !== -1)]
    under [typeof mount === 'object']. *)
Definition mount_denies (mount : jsval) : completion bool :=
  if String.eqb (js_typeof mount) "object" then
    cbind (js_get mount "enabled") (fun enabled =>
    if strict_equals enabled (JBool false) then Normal true
    else
      cbind (js_get mount "ro") (fun ro =>
      Normal (strict_equals ro (JBool true)
              && match o_method options with
                 | Some method => existsb (String.eqb method) writeableMap
                 | None => false
                 end)))
  else Normal false.

(** [groups[parsed.protocol]] is set and
    [!hasGroup(instance, http, groups[parsed.protocol])]. *)
Definition protocol_group_denies (protocol : string) : completion bool :=
  let groups := default ∅ (vfs_groups (CONFIG instance)) in
  if js_truthy (obj_get groups protocol) then
    cbind (hasGroup (Inst instance) (Req http) (Val (obj_get groups protocol)))
          (fun ok => Normal (negb ok))
  else Normal false.

(** The inner function [_check] of [checkMountPermission]. *)
Definition _check : completion bool :=
  cbind (parseVirtualPath (o_args options) http) (fun protocol =>
  let mountpoints := default ∅ (vfs_mounts (CONFIG instance)) in
  let mount := obj_get mountpoints protocol in
  cbind (mount_denies mount) (fun denied =>
  if denied then Normal false
  else
    cbind (protocol_group_denies protocol) (fun denied =>
    if denied then Normal false else Normal true))).

Definition checkMountPermission : Async jsval :=
  checked CkMount
    match type with
    | Tfs =>
        match _check with
        | Normal true => ret JUndefined
        | Normal false => reject (JStr "Access Denied!")
        | Throw e => reject e
        end
    | _ => ret JUndefined
    end.

Definition checkPackagePermission : Async jsval :=
  checked CkPackage
    match type with
    | Tpackage =>
        catch
          (blacklist <- (emit (EvGetBlacklist username) ;;
                         await (getBlacklist (STORAGE instance) username)) ;;
           match
             if js_truthy blacklist
             then js_indexOf_found blacklist
                    (from_option JStr JUndefined (o_path options))
             else Normal false
           with
           | Normal true => reject (JStr "Access Denied!")
           | Normal false => ret JUndefined
           | Throw e => reject e
           end)%async
          (fun _ => reject (JStr "Access Denied!"))
    | _ => ret JUndefined
    end.

(** [checkPermission(http, type, options)]: each [.catch(reject)] of
    the source forwards the rejection of the promise it hangs on, so
    the three checks run in sequence up to the first that rejects. *)
Definition checkPermission : Async jsval :=
  (checkGroups <- checked CkAuthenticator
                    (await (auth_checkPermission (AUTH instance) http type options)) ;;
   let checkGroups :=
     if String.eqb (js_typeof checkGroups) "undefined" then JBool true else checkGroups in
   if js_truthy checkGroups then
     checkApiPermission ;; checkMountPermission ;; checkPackagePermission
   else ret JUndefined)%async.

End checkPermission.

(** *** [lib/instance.js], function [request] *)

Section request.

Variable http : ServerRequest.

(** Logging is not recorded; reading [err.stack] for the log line throws
    when [err] is [undefined] or [null], before anything is sent. *)
Definition _rejectResponse (err : jsval) : Async jsval :=
  match err with
  | JUndefined | JNull => reject (TypeError "Cannot read property 'stack'")
  | _ =>
      if negb (isfs http) && negb (isapi http) then emit (EvRespondError err 403)
      else emit (EvRespondJson (JStr (js_ToString err)) (Some (JBool false)) (Some 403%Z))
  end.

Definition _resolveResponse (result : jsval) : Async jsval :=
  emit (EvRespondJson JNull (Some result) None).

(** [const skip = type === 'api' && ['login'].indexOf(options.method) !== -1] *)
Definition skip (type : ptype) (options : Options) : bool :=
  match type, o_method options with
  | Tapi, Some method => String.eqb method "login"
  | _, _ => false
  end.

Definition _checkPermission (type : ptype) (options : Options) : Async jsval :=
  catch
    ((if skip type options then ret JUndefined
      else resolve_or (checked CkSession (await (auth_checkSession (AUTH instance) http)))
                      _rejectResponse) ;;
     (if skip type options then ret JUndefined
      else resolve_or (checkPermission http type options) _rejectResponse))%async
    _rejectResponse.

(** The [method] and [args] variables of [_vfsCall]. *)
Definition vfs_method : string :=
  if String.prefix "get/" (endpoint http) then "read" else strip_get (endpoint http).

Definition vfs_args : jsval :=
  if String.prefix "get/" (endpoint http)
  then JObj {[ "path" := JStr (strip_get (endpoint http)) ]}
  else data http.

(** [{method: method, args: args}] *)
Definition fs_options : Options :=
  {| o_method := Some vfs_method; o_args := vfs_args; o_path := None |}.

Definition _vfsCall : Async jsval :=
  catch
    (_checkPermission Tfs fs_options ;;
     fire (catch
             (result <- (emit (EvVfsRequest vfs_method vfs_args) ;;
                         await (vfs_request http vfs_method vfs_args)) ;;
              _resolveResponse result)
             _rejectResponse))%async
    _rejectResponse.

(** [typeof instance.API[name]]: [instance.API] is an object literal, so
    a name that is not registered still finds the inherited members. *)
Definition API_typeof (name : string) : string :=
  match API instance !! name with
  | Some _ => "function"
  | None => js_typeof (inherited name)
  end.

(** [{method: http.endpoint}] *)
Definition api_options : Options :=
  {| o_method := Some (endpoint http); o_args := JUndefined; o_path := None |}.

(** [instance.API[http.endpoint](http, http.data).then(...).catch(...)].
    For a name that is not registered the callee is an inherited member
    (or [undefined]): the call throws or yields no promise, so that [.then]
    throws, inside the callback.  (For [valueOf], which returns
    [instance.API] itself, this presumes that no API method is named
    [then].) *)
Definition _apiCall : Async jsval :=
  catch
    (_checkPermission Tapi api_options ;;
     match API instance !! endpoint http with
     | Some handler =>
         fire (catch
                 (result <- (emit (EvApiHandler (endpoint http) (data http)) ;;
                             await (handler http (data http))) ;;
                  _resolveResponse result)
                 _rejectResponse)
     | None => reject (TypeError "then is not a function")
     end)%async
    _rejectResponse.

Definition _serve : Async jsval :=
  emit (EvRespondFile [DIRS_root instance; DIST instance; path http]).

Definition _deny : Async jsval :=
  emit (EvRespondError (JStr "Access denied") 403).

Definition _staticResponse : Async jsval :=
  match package_match (path http) with
  | Some (name, _) =>
      catch
        (_checkPermission Tpackage (package_options name) ;;
         fire (catch
                 (checked CkSession (await (auth_checkSession (AUTH instance) http)) ;;
                  _serve)
                 (fun _ => _deny)))%async
        (fun _ => _deny)
  | None => _serve
  end.

(** [request(http)]; the promise of [initSession] has no [.catch]. *)
Definition request : Async jsval :=
  ((emit EvInitSession ;; await (auth_initSession (AUTH instance) http)) ;;
   fire
     (if String.eqb (request_method http) "GET" then
        if isfs http then _vfsCall else _staticResponse
      else
        if isfs http then _vfsCall
        else if String.eqb (API_typeof (endpoint http)) "function" then _apiCall
        else emit (EvRespondJson (JStr "No such API method") None (Some 500%Z))))%async.

End request.

End Server.


(** ** A concrete deployment

    A small instance on which the definitions above can be run: the mysql
    authenticator, a storage module with one blacklist, three API methods,
    and a configuration with a read-only mount and a group-restricted
    protocol. *)

Module Demo.

Definition quote : string := String (ascii_of_nat 34) EmptyString.

Fixpoint split_commas (s acc : string) : list string :=
  match s with
  | EmptyString => [acc]
  | String c rest =>
      if Ascii.eqb c ","%char then acc :: split_commas rest EmptyString
      else split_commas rest (acc +:+ String c EmptyString)
  end.

(** A quoted string without escapes. *)
Definition unquote (s : string) : option string :=
  let n := String.length s in
  if (2 <=? n)%nat && String.prefix quote s
     && String.eqb (String.substring (n - 1) 1 s) quote
     && negb (js_includes quote (String.substring 1 (n - 2) s))
     && negb (js_includes "\" (String.substring 1 (n - 2) s))
  then Some (String.substring 1 (n - 2) s) else None.

(** [JSON.parse] on the texts this deployment stores and reads: the
    literals [null], [true], [false], and arrays of plain strings written
    without white space.  Every other text is taken to be a syntax
    error. *)
Definition JSON_parse (text : string) : option jsval :=
  if String.eqb text "null" then Some JNull
  else if String.eqb text "true" then Some (JBool true)
  else if String.eqb text "false" then Some (JBool false)
  else if String.eqb text "[]" then Some (JArr [])
  else
    let n := String.length text in
    if String.prefix "[" text && String.eqb (String.substring (n - 1) 1 text) "]" then
      JArr <$> mapM (fun item => JStr <$> unquote item)
                    (split_commas (String.substring 1 (n - 2) text) EmptyString)
    else None.

Fixpoint before_separator (s : string) : option string :=
  if String.prefix "://" s then Some EmptyString
  else
    match s with
    | EmptyString => None
    | String c rest => String c <$> before_separator rest
    end.

(** Modelled from the spec: [parseVirtualPath] of [lib/vfs.js], reduced to
    the protocol it yields.  The path is split on the first [://]; without
    a separator the protocol is the default mount, here [home]. *)
Definition parseVirtualPath (args : jsval) (http : ServerRequest) : completion string :=
  match args with
  | JObj props =>
      match props !! "path" with
      | Some (JStr p) => Normal (default "home" (before_separator p))
      | _ => Normal "home"
      end
  | JUndefined | JNull => Throw (TypeError "Cannot read property 'path'")
  | _ => Normal "home"
  end.

(** A transport that answers every operation with [true]. *)
Definition vfs_request (http : ServerRequest) (method : string) (args : jsval)
  : outcome jsval :=
  Resolved (JBool true).

Definition storage : Storage :=
  {| getBlacklist := fun username =>
       if strict_equals username (JStr "guest")
       then Resolved (JArr [JStr "default/Settings"])
       else if strict_equals username (JStr "ghost")
       then Rejected (JStr "connection lost")
       else Resolved (JArr []) |}.

Definition echo : Handler := fun http args => Resolved args.

Definition config : Config :=
  {| api_groups := {[ "application" := JStr "application"; "curl" := JStr "curl" ]};
     vfs_mounts := Some {[ "shared" := JObj {[ "ro" := JBool true ]};
                           "home" := JStr "/home/%USERNAME%" ]};
     vfs_groups := Some {[ "osjs" := JArr [JStr "staff"] ]} |}.

Definition instance : ServerInstance :=
  {| API := {[ "login" := echo; "application" := echo; "curl" := echo ]};
     CONFIG := config;
     AUTH := mysql.exports;
     STORAGE := storage;
     DIRS_root := "/opt/osjs";
     DIST := "dist" |}.

(** A session holding a user name and the JSON text of its groups. *)
Definition session (username groups : jsval) (key : string) : jsval :=
  if String.eqb key "username" then username
  else if String.eqb key "groups" then groups
  else JUndefined.

Definition no_session : string -> jsval := fun _ => JUndefined.

Definition groups_text (names : list string) : jsval :=
  JStr ("[" +:+ join_with "," (map (fun n => quote +:+ n +:+ quote) names) +:+ "]").

Definition post_api (name : string) (body : jsval) (s : string -> jsval) : ServerRequest :=
  {| request_method := "POST"; path := "/API/" +:+ name; endpoint := name;
     data := body; isfs := false; isapi := true; session_get := s |}.

Definition post_fs (op : string) (body : jsval) (s : string -> jsval) : ServerRequest :=
  {| request_method := "POST"; path := "/FS/" +:+ op; endpoint := op;
     data := body; isfs := true; isapi := false; session_get := s |}.

Definition get_static (p : string) (s : string -> jsval) : ServerRequest :=
  {| request_method := "GET"; path := p; endpoint := p;
     data := JUndefined; isfs := false; isapi := false; session_get := s |}.

Definition path_arg (p : string) : jsval := JObj {[ "path" := JStr p ]}.

Definition run (http : ServerRequest) : list event :=
  trace (request JSON_parse parseVirtualPath vfs_request instance http).

(** Callers: an administrator, a regular user, a user with a blacklisted
    package, and a user for whom the storage module fails. *)
Definition alice : string -> jsval := session (JStr "alice") (groups_text ["fs"; "admin"]).
Definition bob : string -> jsval := session (JStr "bob") (groups_text ["fs"; "application"]).
Definition guest : string -> jsval := session (JStr "guest") (groups_text []).
Definition ghost : string -> jsval := session (JStr "ghost") (groups_text []).

(** Requests. *)
Definition anonymous_write : ServerRequest :=
  post_fs "write" (path_arg "home:///notes.txt") no_session.

Definition write_shared : ServerRequest :=
  post_fs "write" (path_arg "shared:///report.txt") alice.

Definition read_osjs : ServerRequest :=
  post_fs "read" (path_arg "osjs:///themes") bob.

Definition call_toString : ServerRequest := post_api "toString" JNull bob.

Definition get_file : ServerRequest :=
  {| request_method := "GET"; path := "/FS/get/home:///a.txt";
     endpoint := "get/home:///a.txt"; data := JUndefined;
     isfs := true; isapi := false; session_get := bob |}.

Definition package_of (s : string -> jsval) : ServerRequest :=
  get_static "/packages/default/Settings/main.js" s.

End Demo.

(** ** Vocabulary of the statements *)

(** The calls a spy on the transports, the API methods and the storage
    module would record. *)
Definition is_backend_call (ev : event) : bool :=
  match ev with
  | EvGetBlacklist _ | EvVfsRequest _ _ | EvApiHandler _ _ => true
  | _ => false
  end.

Definition backend_calls (t : list event) : list event := List.filter is_backend_call t.

Definition is_served (ev : event) : bool :=
  match ev with EvRespondFile _ => true | _ => false end.

(** The checks that ran, in order, each with its verdict. *)
Definition check_log (t : list event) : list (check * verdict) :=
  omap (fun ev => match ev with EvCheck c v => Some (c, v) | _ => None end) t.





(** The one request that skips the session check: a call of the API
    method [login]. *)
Definition is_api_login (http : ServerRequest) : bool :=
  negb (String.eqb (request_method http) "GET") && negb (isfs http)
  && String.eqb (endpoint http) "login".

(** Two facts about [JSON.parse] that every implementation satisfies. *)
Definition JSON_conforms (parse : string -> option jsval) : Prop :=
  parse "undefined" = None /\ parse "null" = Some JNull.

(** The session's [groups] entry is absent or is not valid JSON. *)
Definition groups_unreadable (parse : string -> option jsval) (http : jsarg) : Prop :=
  forall h, http = Req h ->
    session_get h "groups" = JUndefined \/ session_get h "groups" = JNull
    \/ parse (js_ToString (session_get h "groups")) = None.

Definition nonempty_array (a : jsarg) : bool :=
  match a with
  | Val (JArr (_ :: _)) => true
  | _ => false
  end.

(** The session's groups are a JSON array that lists [admin]. *)
Definition holds_admin (parse : string -> option jsval) (http : ServerRequest) : Prop :=
  exists groups, parse (js_ToString (session_get http "groups")) = Some (JArr groups)
                 /\ In (JStr "admin") groups.







(** Reasons whose text [String(reason)] is fixed by the value alone:
    strings, booleans, numbers and [Error] objects. *)
Definition is_plain_reason (e : jsval) : bool :=
  match e with
  | JBool _ | JNum _ | JStr _ | JError _ _ => true
  | _ => false
  end.

(** Events of the response sink that carry an error or a JSON envelope. *)
Definition is_response (ev : event) : bool :=
  match ev with
  | EvRespondJson _ _ _ | EvRespondError _ _ => true
  | _ => false
  end.

(** The replies of [_rejectResponse]: status 403. *)
Definition is_denial (ev : event) : bool :=
  match ev with
  | EvRespondJson _ _ (Some 403%Z) | EvRespondError _ 403%Z => true
  | _ => false
  end.

(** Events a permission check can produce on its own. *)
Definition is_check_event (ev : event) : bool :=
  match ev with
  | EvCheck _ _ | EvGetBlacklist _ => true
  | _ => false
  end.



(** The reply to a backend promise:
    [.then(_resolveResponse).catch(_rejectResponse)]. *)
Definition settled_reply (http : ServerRequest) (o : outcome jsval) : list event :=
  match o with
  | Resolved r => [EvRespondJson JNull (Some r) None]
  | Rejected e => trace (_rejectResponse http e)
  | Pending => []
  end.

(** ** The rest of [modules/auth/mysql.js]: [login] *)

Definition chars (s : string) : list Ascii.ascii := String.list_ascii_of_string s.

Fixpoint has_line_terminator (s : string) : bool :=
  match s with
  | EmptyString => false
  | String c rest => at_line_terminator (String c rest) || has_line_terminator rest
  end.

Definition has_slash (s : string) : bool := existsb (Ascii.eqb "/"%char) (chars s).

Module mysql_login.

(** [row.password.replace(/^\$2y(.+)$/i, '\$2a$1')]: the expression is
    anchored at both ends and case-insensitive, its group wants at least
    one character and no line terminator; in the replacement [$2] names no
    group and stays as it is, so the result is [$2a] followed by the
    group. *)
Definition fix_hash (stored : string) : string :=
  if (String.prefix "$2y" stored || String.prefix "$2Y" stored)
     && negb (String.eqb (drop_string 3 stored) "")
     && negb (has_line_terminator (drop_string 3 stored))
  then "$2a" +:+ drop_string 3 stored
  else stored.

(** A row of the [users] table, as [mysqlQuery] hands it over. *)
Record Row : Type := {
  id : jsval;
  username : jsval;
  name : jsval;
  password : jsval
}.

(** The [data] argument: [{username, password}]. *)
Record Credentials : Type := {
  data_username : jsval;
  data_password : jsval
}.

Section login.

(** [parseInt] *)
Variable parseInt : jsval -> jsval.

(** [_utils.mysqlQuery(pool, q, [username], callback, true)]: the
    arguments [(err, row)] its callback receives ([row] is [None] when it
    is falsy), or [None] when the callback is never called. *)
Variable mysqlQuery : jsval -> option (jsval * option Row).

(** [_bcrypt.compare(password, hash, callback)]: the arguments
    [(err, res)] its callback receives, if it is called. *)
Variable bcrypt_compare : jsval -> string -> option (jsval * jsval).

Definition _invalid : outcome jsval := Rejected (JStr "Invalid credentials").

(** [_auth(row)]; a [password] column that is not a string has no
    [replace] and the callback throws before anything settles. *)
Definition _auth (data : Credentials) (row : Row) : outcome jsval :=
  match password row with
  | JStr stored =>
      match bcrypt_compare (data_password data) (fix_hash stored) with
      | Some (err, res) =>
          if js_truthy err then Rejected err
          else if strict_equals res (JBool true) then
            Resolved (JObj {[ "id" := parseInt (id row);
                              "username" := username row;
                              "name" := name row ]})
          else _invalid
      | None => Pending
      end
  | _ => Pending
  end.

Definition login (http : ServerRequest) (data : Credentials) : outcome jsval :=
  match mysqlQuery (data_username data) with
  | Some (err, row) =>
      if js_truthy err then Rejected err
      else match row with
           | None => _invalid
           | Some row => _auth data row
           end
  | None => Pending
  end.

End login.

End mysql_login.

(** ** [lib/instance.js]: [loadAPI] *)

Module Loader.

(** [filename.substr(0, 1) !== '.'] fails. *)
Definition hidden (filename : string) : bool :=
  String.eqb (String.substring 0 1 filename) ".".

(** [Object.keys(methods).forEach(function(k) { instance.API[k] = methods[k]; })] *)
Definition register (methods api : gmap string Handler) : gmap string Handler :=
  map_fold (fun k handler acc => <[k := handler]> acc) api methods.

(** [loadAPI]: [list] is the directory listing, in the order
    [utils.iterate] walks it, each file name with what [require] yields
    for it. *)
Definition loadAPI (list : list (string * gmap string Handler))
    (api : gmap string Handler) : gmap string Handler :=
  fold_left (fun acc file => if hidden (fst file) then acc else register (snd file) acc)
            list api.

End Loader.

(** ** The build script: [_filter] and [getBuildFiles] *)

Module Build.

(** [_filter(i, opts)], with [opts.target] for [opts]. *)
Definition _filter (i : string) (target : jsval) : bool :=
  if String.prefix "dev:" i && negb (strict_equals target (JStr "dist-dev")) then false
  else if String.prefix "prod:" i && negb (strict_equals target (JStr "dist")) then false
  else true.

(** The three lists [getBuildFiles] works on. *)
Record Files : Type := {
  javascript : list jsval;
  stylesheets : list jsval;
  locales : list jsval
}.

(** [a[key]] when [a[key] instanceof Array]. *)
Definition array_field (a : jsval) (key : string) : option (list jsval) :=
  match a with
  | JObj props =>
      match props !! key with
      | Some (JArr l) => Some l
      | _ => None
      end
  | _ => None
  end.

Definition concat_field (current : list jsval) (a : jsval) (key : string) : list jsval :=
  match array_field a key with
  | Some l => current ++ l
  | None => current
  end.

(** The body of the [forEach] for one overlay [a]. *)
Definition add_overlay (acc : Files) (a : jsval) : Files :=
  if js_truthy a then
    {| javascript := concat_field (javascript acc) a "javascript";
       stylesheets := concat_field (stylesheets acc) a "stylesheets";
       locales := concat_field (locales acc) a "locales" |}
  else acc.

(** [getBuildFiles(opts)]: [overlays] is [opts.overlays] when it is truthy,
    as its entries in the order of [Object.keys]. *)
Definition getBuildFiles (opts : Files) (overlays : option (list (string * jsval))) : Files :=
  match overlays with
  | Some entries => fold_left (fun acc entry => add_overlay acc (snd entry)) entries opts
  | None => opts
  end.

(** What one overlay contributes to the list named [key]. *)
Definition contribution (key : string) (entry : string * jsval) : list jsval :=
  if js_truthy (snd entry) then default [] (array_field (snd entry) key) else [].

End Build.

(** ** Vocabulary of the further statements *)

(** Anything sent to the client. *)
Definition is_reply (ev : event) : bool := is_response ev || is_served ev.

Definition replies (t : list event) : list event := List.filter is_reply t.

Definition is_storage_call (ev : event) : bool :=
  match ev with EvGetBlacklist _ => true | _ => false end.

(** Membership of the groups [ug] of a caller, with [===]. *)
Definition member_of (ug : list jsval) (name : jsval) : bool :=
  existsb (strict_equals name) ug.

(** [all] selects [every]. *)
Definition wants_every (all : jsarg) : bool :=
  String.eqb (arg_typeof all) "undefined" || arg_truthy all.

(** Further callers and requests of the deployment. *)
Module Cases.

Definition carol : string -> jsval :=
  Demo.session (JStr "carol") (Demo.groups_text ["fs"; "application"; "curl"]).

(** A session whose [groups] entry is the JSON text of a boolean. *)
Definition dave : string -> jsval := Demo.session (JStr "dave") (JStr "true").

(** A session whose [groups] entry is the JSON text of a string. *)
Definition erin : string -> jsval :=
  Demo.session (JStr "erin") (JStr (Demo.quote +:+ "fs,administrators" +:+ Demo.quote)).

(** [JSON.parse] of the deployment, extended with quoted strings. *)
Definition JSON_parse (text : string) : option jsval :=
  match Demo.unquote text with
  | Some s => Some (JStr s)
  | None => Demo.JSON_parse text
  end.

Definition config : Config :=
  {| api_groups := {[ "application" := JStr "application" ]};
     vfs_mounts := Some {[ "shared" := JObj {[ "ro" := JBool true ]};
                           "backup" := JObj {[ "enabled" := JBool false ]};
                           "broken" := JNull;
                           "home" := JStr "/home/%USERNAME%" ]};
     vfs_groups := None |}.

Definition instance : ServerInstance :=
  {| API := {[ "login" := Demo.echo; "application" := Demo.echo ]};
     CONFIG := config;
     AUTH := mysql.exports;
     STORAGE := Demo.storage;
     DIRS_root := "/opt/osjs";
     DIST := "dist" |}.

(** An authenticator whose hook waives the group checks. *)
Definition lenient : Authenticator :=
  {| auth_initSession := mysql.initSession;
     auth_checkSession := mysql.checkSession;
     auth_checkPermission := fun _ _ _ => Resolved (JBool false) |}.

(** An authenticator that rejects without a reason. *)
Definition silent : Authenticator :=
  {| auth_initSession := mysql.initSession;
     auth_checkSession := fun _ => Rejected JUndefined;
     auth_checkPermission := mysql.checkPermission |}.

Definition with_auth (a : Authenticator) : ServerInstance :=
  {| API := API instance; CONFIG := config; AUTH := a; STORAGE := Demo.storage;
     DIRS_root := "/opt/osjs"; DIST := "dist" |}.

(** A transport that fails. *)
Definition failing_vfs (http : ServerRequest) (method : string) (args : jsval)
  : outcome jsval :=
  Rejected (JStr "ENOENT").

Definition run (http : ServerRequest) : list event :=
  trace (request Demo.JSON_parse Demo.parseVirtualPath Demo.vfs_request instance http).

(** The [users] table and [bcrypt] of a deployment with one user. *)
Definition alice_row : mysql_login.Row :=
  {| mysql_login.id := JNum 7; mysql_login.username := JStr "alice";
     mysql_login.name := JStr "Alice";
     mysql_login.password := JStr "$2y$10$abcdefghijklmnopqrstuv" |}.

Definition mysqlQuery (username : jsval) : option (jsval * option mysql_login.Row) :=
  if strict_equals username (JStr "alice") then Some (JNull, Some alice_row)
  else Some (JNull, None).

Definition bcrypt_compare (password : jsval) (hash : string) : option (jsval * jsval) :=
  Some (JUndefined,
        JBool (strict_equals password (JStr "secret")
               && String.eqb hash "$2a$10$abcdefghijklmnopqrstuv")).

Definition parseInt (v : jsval) : jsval := v.

End Cases.

(** Sanity checks of the helpers on concrete inputs. *)

Example strip_get_example : strip_get "get/home:///a/b.txt" = "home:///a/b.txt".
Proof. reflexivity. Qed.

Example strip_get_once : strip_get "get/get/x" = "get/x".
Proof. reflexivity. Qed.

Example strip_get_other : strip_get "write" = "write".
Proof. reflexivity. Qed.

Example package_match_example :
  package_match "/packages/default/Settings/main.js" = Some ("default/Settings", "main.js").
Proof. reflexivity. Qed.

Example package_match_short : package_match "packages/Settings/main.js" = None.
Proof. reflexivity. Qed.

Example package_match_deep :
  package_match "packages/a/b/c/d.js" = Some ("a/b/c", "d.js").
Proof. reflexivity. Qed.

Example JSON_parse_groups :
  Demo.JSON_parse (js_ToString (Demo.groups_text ["fs"; "admin"]))
  = Some (JArr [JStr "fs"; JStr "admin"]).
Proof. reflexivity. Qed.

Example JSON_parse_undefined_text : Demo.JSON_parse (js_ToString JUndefined) = None.
Proof. reflexivity. Qed.

Example inherited_toString : js_typeof (inherited "toString") = "function".
Proof. reflexivity. Qed.

Example inherited_other : inherited "application" = JUndefined.
Proof. reflexivity. Qed.

(** ** Group membership: [hasGroup] *)

Section hasGroup_facts.

Variable JSON_parse : string -> option jsval.

Lemma js_every_all_false (l : list jsval) (f : jsval -> completion bool) :
  l <> [] -> (forall x, f x = Normal false) -> js_every f l = Normal false.
Proof.
  destruct l as [|x rest]; [congruence|].
  intros _ Hf. simpl. now rewrite Hf.
Qed.

Lemma js_some_all_false (l : list jsval) (f : jsval -> completion bool) :
  (forall x, f x = Normal false) -> js_some f l = Normal false.
Proof.
  intros Hf. induction l as [|x rest IH]; simpl; [reflexivity|].
  now rewrite Hf.
Qed.

Lemma userGroups_unreadable (http : jsarg) :
  JSON_conforms JSON_parse -> groups_unreadable JSON_parse http ->
  userGroups JSON_parse http = JArr [].
Proof.
  intros [Hundef Hnull] Hun. destruct http as [v|h|i]; simpl; try reflexivity.
  destruct (Hun h eq_refl) as [E|[E|E]]; rewrite E; simpl.
  - now rewrite Hundef.
  - now rewrite Hnull.
  - reflexivity.
Qed.

Lemma hasGroup_not_array (http groupList all : jsarg) :
  nonempty_array groupList = false -> hasGroup JSON_parse http groupList all = Normal true.
Proof.
  destruct groupList as [[| | | | |[|g rest]| | |]| |]; simpl; intros H;
    solve [reflexivity | discriminate].
Qed.

Lemma hasGroup_no_groups (http all : jsarg) (g : jsval) (rest : list jsval) :
  userGroups JSON_parse http = JArr [] ->
  hasGroup JSON_parse http (Val (JArr (g :: rest))) all = Normal false.
Proof.
  intros E. unfold hasGroup. rewrite E. simpl.
  destruct (String.eqb (arg_typeof all) "undefined" || arg_truthy all).
  - reflexivity.
  - now rewrite js_some_all_false.
Qed.

Lemma strict_equals_str (s : string) : strict_equals (JStr s) (JStr s) = true.
Proof. simpl. apply String.eqb_refl. Qed.

Lemma hasGroup_admin (h : ServerRequest) (groupList all : jsarg) :
  holds_admin JSON_parse h -> hasGroup JSON_parse (Req h) groupList all = Normal true.
Proof.
  intros (ug & Hparse & Hin).
  destruct (nonempty_array groupList) eqn:Hne; [|now apply hasGroup_not_array].
  destruct groupList as [[| | | | |[|g rest]| | |]| |]; try discriminate Hne.
  unfold hasGroup, userGroups. rewrite Hparse. simpl.
  assert (existsb (strict_equals (JStr "admin")) ug = true) as ->; [|reflexivity].
  apply existsb_exists. exists (JStr "admin"). split; [exact Hin|reflexivity].
Qed.

(** C9.  A required group list that is not a non-empty array is always
    satisfied; and when the session's [groups] entry is absent or is not
    valid JSON the caller has no groups, so every non-empty required list
    is refused. *)
Theorem hasGroup_default_and_unreadable (http groupList all : jsarg) :
  JSON_conforms JSON_parse ->
  (nonempty_array groupList = true -> groups_unreadable JSON_parse http) ->
  hasGroup JSON_parse http groupList all = Normal (negb (nonempty_array groupList)).
Proof.
  intros Hjson Hun.
  destruct (nonempty_array groupList) eqn:Hne.
  - destruct groupList as [[| | | | |[|g rest]| | |]| |]; try discriminate Hne.
    apply hasGroup_no_groups. apply userGroups_unreadable; auto.
  - now apply hasGroup_not_array.
Qed.

End hasGroup_facts.

(** ** The checks of [lib/auth.js] *)

Section checks.

Variable JSON_parse : string -> option jsval.
Variable parseVirtualPath : jsval -> ServerRequest -> completion string.
Variable instance : ServerInstance.

Lemma protocol_group_never_denies (http : ServerRequest) (protocol : string) :
  protocol_group_denies JSON_parse instance http protocol = Normal false.
Proof.
  unfold protocol_group_denies.
  destruct (js_truthy _); reflexivity.
Qed.

Lemma checkApiPermission_result (http : ServerRequest) (type : ptype) (options : Options) :
  result (checkApiPermission JSON_parse instance http type options) =
  match hasGroup JSON_parse (Req http)
          (Val (JArr (api_checks instance type options))) (Val JUndefined) with
  | Normal true => Resolved JUndefined
  | Normal false => Rejected (JStr "Access denied!")
  | Throw e => Rejected e
  end.
Proof.
  unfold checkApiPermission, checked, result. cbn [snd].
  destruct (hasGroup _ _ _ _) as [[|]|e]; reflexivity.
Qed.

(** C5.  For a caller whose session groups list [admin], [hasGroup]
    accepts any required list, the API method group check resolves whatever
    the method and its required groups, and the protocol group check of the
    mount stage does not deny. *)
Theorem admin_passes_group_checks
    (http : ServerRequest) (type : ptype) (options : Options)
    (protocol : string) (groupList all : jsarg) :
  holds_admin JSON_parse http ->
  hasGroup JSON_parse (Req http) groupList all = Normal true
  /\ result (checkApiPermission JSON_parse instance http type options) = Resolved JUndefined
  /\ protocol_group_denies JSON_parse instance http protocol = Normal false.
Proof.
  intros Hadmin. repeat split.
  - now apply hasGroup_admin.
  - rewrite checkApiPermission_result. now rewrite hasGroup_admin.
  - apply protocol_group_never_denies.
Qed.




Lemma checkPackagePermission_storage_failure
    (http : ServerRequest) (options : Options) (e : jsval) :
  getBlacklist (STORAGE instance) (session_get http "username") = Rejected e ->
  checkPackagePermission instance http Tpackage options
  = ([EvGetBlacklist (session_get http "username"); EvCheck CkPackage Failed],
     Rejected (JStr "Access Denied!")).
Proof.
  intros Hfail. unfold checkPackagePermission. simpl. rewrite Hfail. reflexivity.
Qed.

(** C10.  When the storage module's blacklist query is rejected, the
    package check rejects with ['Access Denied!']; and so does the whole
    permission check whenever it got as far as asking the storage
    module. *)
Theorem blacklist_failure_is_denied
    (http : ServerRequest) (options : Options) (e : jsval) :
  getBlacklist (STORAGE instance) (session_get http "username") = Rejected e ->
  result (checkPackagePermission instance http Tpackage options)
  = Rejected (JStr "Access Denied!")
  /\ (In (EvGetBlacklist (session_get http "username"))
         (trace (checkPermission JSON_parse parseVirtualPath instance http Tpackage options)) ->
      result (checkPermission JSON_parse parseVirtualPath instance http Tpackage options)
      = Rejected (JStr "Access Denied!")).
Proof.
  intros Hfail.
  pose proof (checkPackagePermission_storage_failure http options e Hfail) as Hpkg.
  split; [now rewrite Hpkg|].
  unfold checkPermission. rewrite Hpkg.
  unfold checkApiPermission, checkMountPermission, checked, await, and_then, trace, result.
  destruct (auth_checkPermission (AUTH instance) http Tpackage options) as [cg|r|];
    cbn [fst snd verdict_of app].
  - destruct (js_truthy _); cbn [fst snd verdict_of app ret].
    + destruct (hasGroup _ _ _ _) as [[|]|r]; cbn; try reflexivity;
        intros H; repeat (destruct H as [H|H]; try discriminate H); contradiction.
    + intros H; repeat (destruct H as [H|H]; try discriminate H); contradiction.
  - intros H; repeat (destruct H as [H|H]; try discriminate H); contradiction.
  - intros H; repeat (destruct H as [H|H]; try discriminate H); contradiction.
Qed.

End checks.

(** ** Traces of the promise combinators *)

Lemma and_then_trace {A B} (p : Async A) (f : A -> Async B) :
  trace (and_then p f) =
  trace p ++ match result p with Resolved a => trace (f a) | _ => [] end.
Proof.
  destruct p as [t [a|e|]]; unfold and_then, trace, result; cbn [fst snd].
  - now destruct (f a).
  - now rewrite app_nil_r.
  - now rewrite app_nil_r.
Qed.

Lemma and_then_result {A B} (p : Async A) (f : A -> Async B) :
  result (and_then p f) =
  match result p with
  | Resolved a => result (f a)
  | Rejected e => Rejected e
  | Pending => Pending
  end.
Proof.
  destruct p as [t [a|e|]]; unfold and_then, result; cbn [fst snd]; try reflexivity.
  now destruct (f a).
Qed.

Lemma catch_unrejected {A} (p : Async A) (h : jsval -> Async A) :
  (forall e, result p <> Rejected e) -> catch p h = p.
Proof.
  destruct p as [t [a|e|]]; intros H; try reflexivity.
  now destruct (H e).
Qed.



Lemma backend_calls_app (a b : list event) :
  backend_calls (a ++ b) = backend_calls a ++ backend_calls b.
Proof. apply List.filter_app. Qed.

Lemma backend_calls_responses (t : list event) :
  Forall (fun ev => is_response ev = true) t -> backend_calls t = [].
Proof.
  induction 1 as [|ev t Hev _ IH]; [reflexivity|].
  destruct ev; try discriminate Hev; exact IH.
Qed.


Lemma replies_app (a b : list event) : replies (a ++ b) = replies a ++ replies b.
Proof. apply List.filter_app. Qed.

Lemma replies_of_checks (t : list event) :
  Forall (fun ev => is_check_event ev = true) t -> replies t = [].
Proof.
  induction 1 as [|ev t Hev _ IH]; [reflexivity|].
  destruct ev; try discriminate Hev; exact IH.
Qed.

(** ** The permission pipeline *)





Section pipeline.

Variable JSON_parse : string -> option jsval.
Variable parseVirtualPath : jsval -> ServerRequest -> completion string.
Variable instance : ServerInstance.

Local Abbreviation checkApiPermission := (checkApiPermission JSON_parse instance).
Local Abbreviation checkMountPermission :=
  (checkMountPermission JSON_parse parseVirtualPath instance).
Local Abbreviation checkPackagePermission := (checkPackagePermission instance).
Local Abbreviation checkPermission := (checkPermission JSON_parse parseVirtualPath instance).
Local Abbreviation _checkPermission := (_checkPermission JSON_parse parseVirtualPath instance).

Lemma checked_trace {A} (c : check) (p : Async A) :
  trace (checked c p) = trace p ++ [EvCheck c (verdict_of (result p))].
Proof. reflexivity. Qed.

Lemma checked_result {A} (c : check) (p : Async A) : result (checked c p) = result p.
Proof. reflexivity. Qed.

(** Each of the three checks logs itself once, with the verdict of its
    own promise. *)
Lemma checkApiPermission_log (http : ServerRequest) (type : ptype) (options : Options) :
  trace (checkApiPermission http type options)
  = [EvCheck CkApi (verdict_of (result (checkApiPermission http type options)))].
Proof.
  unfold checkApiPermission. rewrite checked_trace, checked_result.
  now destruct (hasGroup _ _ _ _) as [[|]|e].
Qed.

Lemma checkMountPermission_log (http : ServerRequest) (type : ptype) (options : Options) :
  trace (checkMountPermission http type options)
  = [EvCheck CkMount (verdict_of (result (checkMountPermission http type options)))].
Proof.
  unfold checkMountPermission. rewrite checked_trace, checked_result.
  destruct type; try reflexivity.
  now destruct (_check _ _ _ _ _) as [[|]|e].
Qed.

Lemma checkPackagePermission_log (http : ServerRequest) (type : ptype) (options : Options) :
  check_log (trace (checkPackagePermission http type options))
  = [(CkPackage, verdict_of (result (checkPackagePermission http type options)))]
  /\ Forall (fun ev => is_check_event ev = true)
            (trace (checkPackagePermission http type options)).
Proof.
  unfold checkPackagePermission. rewrite checked_trace, checked_result.
  destruct type; try (split; [reflexivity|repeat constructor]).
  unfold catch, and_then, await, emit, ret, reject, trace, result.
  destruct (getBlacklist _ _) as [blacklist|e|]; cbn [fst snd app];
    try (split; [reflexivity|repeat constructor]).
  destruct (if js_truthy blacklist then _ else _) as [[|]|e];
    split; first [reflexivity|repeat constructor].
Qed.

(** The trace and the result of [checkPermission] in terms of those of
    the authenticator's hook and of the three checks. *)
Lemma checkPermission_unfold (http : ServerRequest) (type : ptype) (options : Options) :
  checkPermission http type options =
  match auth_checkPermission (AUTH instance) http type options with
  | Resolved checkGroups =>
      if js_truthy (if String.eqb (js_typeof checkGroups) "undefined"
                    then JBool true else checkGroups)
      then
        match result (checkApiPermission http type options) with
        | Resolved _ =>
            match result (checkMountPermission http type options) with
            | Resolved _ =>
                (EvCheck CkAuthenticator Passed :: EvCheck CkApi Passed
                   :: EvCheck CkMount Passed
                   :: trace (checkPackagePermission http type options),
                 result (checkPackagePermission http type options))
            | Rejected e =>
                ([EvCheck CkAuthenticator Passed; EvCheck CkApi Passed;
                  EvCheck CkMount Failed], Rejected e)
            | Pending =>
                ([EvCheck CkAuthenticator Passed; EvCheck CkApi Passed;
                  EvCheck CkMount Hung], Pending)
            end
        | Rejected e =>
            ([EvCheck CkAuthenticator Passed; EvCheck CkApi Failed], Rejected e)
        | Pending => ([EvCheck CkAuthenticator Passed; EvCheck CkApi Hung], Pending)
        end
      else ([EvCheck CkAuthenticator Passed], Resolved JUndefined)
  | Rejected e => ([EvCheck CkAuthenticator Failed], Rejected e)
  | Pending => ([EvCheck CkAuthenticator Hung], Pending)
  end.
Proof.
  unfold checkPermission.
  destruct (auth_checkPermission (AUTH instance) http type options) as [cg|e|];
    try reflexivity.
  unfold checked at 1, await. cbn [fst snd verdict_of app and_then].
  destruct (js_truthy _); [|reflexivity].
  pose proof (checkApiPermission_log http type options) as Ha.
  pose proof (checkMountPermission_log http type options) as Hm.
  unfold trace, result in *.
  destruct (checkApiPermission http type options) as [ta [a|e|]];
    cbn [fst snd verdict_of] in *; subst ta; cbn [and_then app]; try reflexivity.
  destruct (checkMountPermission http type options) as [tm [m|e|]];
    cbn [fst snd verdict_of] in *; subst tm; cbn [and_then app]; try reflexivity.
Qed.

Lemma checkPermission_events (http : ServerRequest) (type : ptype) (options : Options) :
  Forall (fun ev => is_check_event ev = true) (trace (checkPermission http type options)).
Proof.
  rewrite checkPermission_unfold.
  destruct (auth_checkPermission _ _ _ _) as [cg|e|]; try (repeat constructor).
  destruct (js_truthy _); try (repeat constructor).
  destruct (result (checkApiPermission _ _ _)); try (repeat constructor).
  destruct (result (checkMountPermission _ _ _)); try (repeat constructor).
  apply checkPackagePermission_log.
Qed.


End pipeline.

(** ** The dispatcher *)



Lemma substring_all (s : string) : String.substring 0 (String.length s) s = s.
Proof. induction s as [|c s IH]; [reflexivity|]. cbn. now rewrite IH. Qed.

Lemma strip_get_prefixed (rest : string) : strip_get ("get/" +:+ rest) = rest.
Proof.
  unfold strip_get. simpl. change ("" +:+ rest) with rest.
  replace (String.prefix "" rest) with true by now destruct rest.
  rewrite Nat.sub_0_r. apply substring_all.
Qed.

Section dispatcher.

Variable JSON_parse : string -> option jsval.
Variable parseVirtualPath : jsval -> ServerRequest -> completion string.
Variable vfs_request : ServerRequest -> string -> jsval -> outcome jsval.
Variable instance : ServerInstance.

Local Abbreviation checkPermission := (checkPermission JSON_parse parseVirtualPath instance).
Local Abbreviation _checkPermission := (_checkPermission JSON_parse parseVirtualPath instance).
Local Abbreviation _vfsCall := (_vfsCall JSON_parse parseVirtualPath vfs_request instance).
Local Abbreviation _apiCall := (_apiCall JSON_parse parseVirtualPath instance).
Local Abbreviation _staticResponse := (_staticResponse JSON_parse parseVirtualPath instance).
Local Abbreviation request := (request JSON_parse parseVirtualPath vfs_request instance).

Lemma _rejectResponse_denials (http : ServerRequest) (e : jsval) :
  Forall (fun ev => is_denial ev = true) (trace (_rejectResponse http e)).
Proof.
  unfold _rejectResponse.
  destruct e; try (destruct (negb _ && negb _)); repeat constructor.
Qed.

Lemma is_denial_response (ev : event) : is_denial ev = true -> is_response ev = true.
Proof. destruct ev; try discriminate; reflexivity. Qed.

Lemma _rejectResponse_responses (http : ServerRequest) (e : jsval) :
  Forall (fun ev => is_response ev = true) (trace (_rejectResponse http e)).
Proof.
  eapply Forall_impl; [apply _rejectResponse_denials|]. apply is_denial_response.
Qed.

Lemma _rejectResponse_sent (http : ServerRequest) (e : jsval) :
  e <> JUndefined -> e <> JNull ->
  trace (_rejectResponse http e) =
  [if negb (isfs http) && negb (isapi http) then EvRespondError e 403
   else EvRespondJson (JStr (js_ToString e)) (Some (JBool false)) (Some 403%Z)].
Proof.
  destruct e; intros; try congruence; unfold _rejectResponse;
    now destruct (negb _ && negb _).
Qed.

(** What the wrapper [_checkPermission] does, by cases on the session
    check and on the permission check: it resolves when both do, and
    otherwise answers through [_rejectResponse] and never settles. *)
Lemma _checkPermission_cases (http : ServerRequest) (type : ptype) (options : Options) :
  _checkPermission http type options =
  if skip type options then ([], Resolved JUndefined)
  else
    match auth_checkSession (AUTH instance) http with
    | Resolved _ =>
        match result (checkPermission http type options) with
        | Resolved v =>
            (EvCheck CkSession Passed :: trace (checkPermission http type options),
             Resolved v)
        | Rejected e =>
            (EvCheck CkSession Passed :: trace (checkPermission http type options)
               ++ trace (_rejectResponse http e), Pending)
        | Pending =>
            (EvCheck CkSession Passed :: trace (checkPermission http type options),
             Pending)
        end
    | Rejected e => (EvCheck CkSession Failed :: trace (_rejectResponse http e), Pending)
    | Pending => ([EvCheck CkSession Hung], Pending)
    end.
Proof.
  unfold _checkPermission.
  destruct (skip type options); [reflexivity|].
  unfold resolve_or, checked, await, and_then, catch, trace, result.
  cbn [fst snd verdict_of app].
  destruct (auth_checkSession (AUTH instance) http) as [v|e|]; cbn [fst snd verdict_of app];
    try reflexivity.
  destruct (checkPermission http type options) as [t [w|e|]]; reflexivity.
Qed.

Lemma _checkPermission_settles (http : ServerRequest) (type : ptype) (options : Options) :
  forall e, result (_checkPermission http type options) <> Rejected e.
Proof.
  intros e. rewrite _checkPermission_cases.
  destruct (skip type options); [discriminate|].
  destruct (auth_checkSession _ _); try discriminate.
  destruct (result (checkPermission _ _ _)); discriminate.
Qed.

Lemma _checkPermission_denials (http : ServerRequest) (type : ptype) (options : Options) :
  Forall (fun ev => is_check_event ev || is_denial ev = true)
         (trace (_checkPermission http type options)).
Proof.
  assert (Forall (fun ev => is_check_event ev || is_denial ev = true)
                 (trace (checkPermission http type options))) as Hc.
  { eapply Forall_impl; [apply checkPermission_events|].
    intros ev H. cbn beta in *. now rewrite H. }
  assert (forall e, Forall (fun ev => is_check_event ev || is_denial ev = true)
                           (trace (_rejectResponse http e))) as Hr.
  { intros e. eapply Forall_impl; [apply _rejectResponse_denials|].
    intros ev H. cbn beta in *. rewrite H. apply orb_true_r. }
  rewrite _checkPermission_cases.
  destruct (skip type options); [constructor|].
  destruct (auth_checkSession _ _); unfold trace at 1; cbn [fst].
  - destruct (result (checkPermission _ _ _)); unfold trace at 1; cbn [fst];
      constructor; try reflexivity; try exact Hc.
    apply Forall_app. split; [exact Hc|apply Hr].
  - constructor; [reflexivity|apply Hr].
  - repeat constructor.
Qed.

Lemma _checkPermission_events (http : ServerRequest) (type : ptype) (options : Options) :
  Forall (fun ev => is_check_event ev || is_response ev = true)
         (trace (_checkPermission http type options)).
Proof.
  eapply Forall_impl; [apply _checkPermission_denials|].
  intros ev H. cbn beta in *. apply orb_true_iff in H as [H|H].
  - now rewrite H.
  - rewrite (is_denial_response ev H). apply orb_true_r.
Qed.




(** *** Traces of the three routes *)

Lemma _vfsCall_trace (http : ServerRequest) :
  trace (_vfsCall http) =
  trace (_checkPermission http Tfs (fs_options http)) ++
  match result (_checkPermission http Tfs (fs_options http)) with
  | Resolved _ =>
      EvVfsRequest (vfs_method http) (vfs_args http)
        :: settled_reply http (vfs_request http (vfs_method http) (vfs_args http))
  | _ => []
  end.
Proof.
  pose proof (_checkPermission_settles http Tfs (fs_options http)) as Hs.
  unfold _vfsCall, trace, result in *.
  destruct (_checkPermission http Tfs (fs_options http)) as [t [v|e|]]; cbn [fst snd] in *.
  - unfold and_then, catch, fire, emit, await, _resolveResponse, settled_reply, trace.
    destruct (vfs_request http (vfs_method http) (vfs_args http)) as [r|e|];
      cbn [fst snd app]; try reflexivity.
    now destruct (_rejectResponse http e).
  - now destruct (Hs e).
  - cbn. now rewrite app_nil_r.
Qed.

Lemma _apiCall_trace (http : ServerRequest) :
  trace (_apiCall http) =
  trace (_checkPermission http Tapi (api_options http)) ++
  match result (_checkPermission http Tapi (api_options http)) with
  | Resolved _ =>
      match API instance !! endpoint http with
      | Some handler =>
          EvApiHandler (endpoint http) (data http)
            :: settled_reply http (handler http (data http))
      | None => trace (_rejectResponse http (TypeError "then is not a function"))
      end
  | _ => []
  end.
Proof.
  pose proof (_checkPermission_settles http Tapi (api_options http)) as Hs.
  unfold _apiCall, trace, result in *.
  destruct (_checkPermission http Tapi (api_options http)) as [t [v|e|]]; cbn [fst snd] in *.
  - destruct (API instance !! endpoint http) as [handler|].
    + unfold and_then, catch, fire, emit, await, _resolveResponse, settled_reply, trace.
      destruct (handler http (data http)) as [r|e|]; cbn [fst snd app]; try reflexivity.
      now destruct (_rejectResponse http e).
    + unfold and_then, catch, reject. cbn [fst snd app].
      destruct (_rejectResponse http _). cbn. now rewrite app_nil_r.
  - now destruct (Hs e).
  - cbn. now rewrite app_nil_r.
Qed.

Lemma _staticResponse_trace (http : ServerRequest) :
  trace (_staticResponse http) =
  match package_match (path http) with
  | Some (name, _) =>
      trace (_checkPermission http Tpackage (package_options name)) ++
      match result (_checkPermission http Tpackage (package_options name)) with
      | Resolved _ =>
          EvCheck CkSession (verdict_of (auth_checkSession (AUTH instance) http))
            :: match auth_checkSession (AUTH instance) http with
               | Resolved _ => [EvRespondFile [DIRS_root instance; DIST instance; path http]]
               | Rejected _ => [EvRespondError (JStr "Access denied") 403]
               | Pending => []
               end
      | _ => []
      end
  | None => [EvRespondFile [DIRS_root instance; DIST instance; path http]]
  end.
Proof.
  unfold _staticResponse.
  destruct (package_match (path http)) as [[name file]|]; [|reflexivity].
  pose proof (_checkPermission_settles http Tpackage (package_options name)) as Hs.
  unfold trace, result in *.
  destruct (_checkPermission http Tpackage (package_options name)) as [t [v|e|]];
    cbn [fst snd] in *.
  - unfold and_then, catch, fire, checked, await, _serve, _deny, emit, trace, result.
    now destruct (auth_checkSession (AUTH instance) http).
  - now destruct (Hs e).
  - cbn. now rewrite app_nil_r.
Qed.

Lemma request_trace (http : ServerRequest) :
  trace (request http) =
  EvInitSession ::
  match auth_initSession (AUTH instance) http with
  | Resolved _ =>
      if String.eqb (request_method http) "GET" then
        if isfs http then trace (_vfsCall http) else trace (_staticResponse http)
      else
        if isfs http then trace (_vfsCall http)
        else if String.eqb (API_typeof instance (endpoint http)) "function"
             then trace (_apiCall http)
             else [EvRespondJson (JStr "No such API method") None (Some 500%Z)]
  | _ => []
  end.
Proof.
  unfold request, and_then, fire, emit, await, trace.
  destruct (auth_initSession (AUTH instance) http); try reflexivity.
  cbn [fst snd app].
  destruct (String.eqb (request_method http) "GET"), (isfs http); try reflexivity.
  now destruct (String.eqb (API_typeof instance (endpoint http)) "function").
Qed.

(** Without a session a check that does not skip the session check answers
    through [_rejectResponse] and stays unsettled. *)
Lemma _checkPermission_no_session
    (http : ServerRequest) (type : ptype) (options : Options) (e : jsval) :
  auth_checkSession (AUTH instance) http = Rejected e ->
  skip type options = false ->
  _checkPermission http type options
  = (EvCheck CkSession Failed :: trace (_rejectResponse http e), Pending).
Proof.
  intros Hs Hskip. now rewrite _checkPermission_cases, Hskip, Hs.
Qed.

Lemma no_backend_call_when_denied (http : ServerRequest) (e : jsval) :
  backend_calls (EvCheck CkSession Failed :: trace (_rejectResponse http e)) = [].
Proof.
  change (backend_calls (trace (_rejectResponse http e)) = []).
  apply backend_calls_responses, _rejectResponse_responses.
Qed.

(** C1.  When the session check rejects and the request is not a call of
    the API method [login], handling the request invokes no VFS transport
    operation, no API method and no storage operation. *)
Theorem no_session_no_backend_call (http : ServerRequest) (e : jsval) :
  auth_checkSession (AUTH instance) http = Rejected e ->
  is_api_login http = false ->
  backend_calls (trace (request http)) = [].
Proof.
  intros Hs Hlogin. rewrite request_trace.
  change (backend_calls (EvInitSession :: ?t)) with (backend_calls t).
  destruct (auth_initSession (AUTH instance) http); try reflexivity.
  assert (backend_calls (trace (_vfsCall http)) = []) as Hvfs.
  { rewrite _vfsCall_trace,
      (_checkPermission_no_session http Tfs (fs_options http) e Hs eq_refl).
    unfold trace at 1, result. cbn [fst snd]. rewrite app_nil_r.
    apply no_backend_call_when_denied. }
  assert (backend_calls (trace (_staticResponse http)) = []) as Hstatic.
  { rewrite _staticResponse_trace.
    destruct (package_match (path http)) as [[name file]|]; [|reflexivity].
    rewrite (_checkPermission_no_session http Tpackage (package_options name) e Hs eq_refl).
    unfold trace at 1, result. cbn [fst snd]. rewrite app_nil_r.
    apply no_backend_call_when_denied. }
  unfold is_api_login in Hlogin.
  destruct (String.eqb (request_method http) "GET"), (isfs http);
    try assumption.
  cbn [negb andb] in Hlogin.
  destruct (String.eqb (API_typeof instance (endpoint http)) "function"); [|reflexivity].
  rewrite _apiCall_trace,
    (_checkPermission_no_session http Tapi (api_options http) e Hs Hlogin).
  unfold trace at 1, result. cbn [fst snd]. rewrite app_nil_r.
  apply no_backend_call_when_denied.
Qed.


Lemma settled_reply_responses (http : ServerRequest) (o : outcome jsval) :
  Forall (fun ev => is_response ev = true) (settled_reply http o).
Proof.
  destruct o as [r|e|]; cbn [settled_reply]; try (repeat constructor).
  apply _rejectResponse_responses.
Qed.

Lemma prefix_get (rest : string) : String.prefix "get/" ("get/" +:+ rest) = true.
Proof. simpl. now destruct rest. Qed.

Lemma not_a_vfs_request (t : list event) (m : string) (a : jsval) :
  Forall (fun ev => is_check_event ev || is_response ev = true) t ->
  ~ In (EvVfsRequest m a) t.
Proof.
  intros Hall Hin. rewrite List.Forall_forall in Hall.
  specialize (Hall _ Hin). discriminate Hall.
Qed.

(** C7.  On the [get/] sub-route the operation handed to the VFS layer is
    [read] and its argument is [{path: rest}], where [rest] is the endpoint
    without the leading [get/]: no other VFS operation is requested, and
    this one is as soon as the session is initialised and the [fs]
    authorization resolves. *)
Theorem get_route_reads (http : ServerRequest) (rest : string) :
  isfs http = true ->
  endpoint http = "get/" +:+ rest ->
  vfs_method http = "read"
  /\ vfs_args http = JObj {[ "path" := JStr rest ]}
  /\ (forall m a, In (EvVfsRequest m a) (trace (request http)) ->
      m = "read" /\ a = JObj {[ "path" := JStr rest ]})
  /\ (forall v w,
      auth_initSession (AUTH instance) http = Resolved v ->
      result (_checkPermission http Tfs (fs_options http)) = Resolved w ->
      In (EvVfsRequest "read" (JObj {[ "path" := JStr rest ]})) (trace (request http))).
Proof.
  intros Hfs Hend.
  assert (vfs_method http = "read") as Hm.
  { unfold vfs_method. now rewrite Hend, prefix_get. }
  assert (vfs_args http = JObj {[ "path" := JStr rest ]}) as Ha.
  { unfold vfs_args. now rewrite Hend, prefix_get, strip_get_prefixed. }
  assert (trace (request http) =
          EvInitSession :: match auth_initSession (AUTH instance) http with
                           | Resolved _ => trace (_vfsCall http)
                           | _ => []
                           end) as Ht.
  { rewrite request_trace, Hfs. now destruct (String.eqb (request_method http) "GET"). }
  split; [exact Hm|]. split; [exact Ha|]. rewrite Ht, _vfsCall_trace, Hm, Ha. split.
  - intros m a [Hin|Hin]; [discriminate Hin|].
    destruct (auth_initSession (AUTH instance) http); try contradiction.
    apply in_app_or in Hin. destruct Hin as [Hin|Hin].
    + now apply not_a_vfs_request in Hin; [|apply _checkPermission_events].
    + destruct (result (_checkPermission http Tfs (fs_options http))); try contradiction.
      destruct Hin as [Hin|Hin]; [now injection Hin as <- <-|].
      apply not_a_vfs_request in Hin; [contradiction|].
      eapply Forall_impl; [apply settled_reply_responses|].
      intros ev H. cbn beta in *. rewrite H. apply orb_true_r.
  - intros v w Hinit Hauth. rewrite Hinit, Hauth.
    right. apply in_or_app. right. now left.
Qed.




End dispatcher.

(** ** Method names that [instance.API] inherits *)

Lemma Object_prototype_functions (name : string) (v : jsval) :
  Object_prototype !! name = Some v -> js_typeof v = "function".
Proof.
  unfold Object_prototype. intros H.
  apply elem_of_list_to_map_2 in H.
  apply list_elem_of_fmap in H as (n & [= -> ->] & _). reflexivity.
Qed.

(** A name that is not registered passes the guard
    [typeof instance.API[name] === 'function'] exactly when
    [Object.prototype] has a member of that name. *)
Lemma API_typeof_unregistered (instance : ServerInstance) (name : string) :
  API instance !! name = None ->
  API_typeof instance name = "function" <-> is_Some (Object_prototype !! name).
Proof.
  intros Hnone. unfold API_typeof, inherited. rewrite Hnone.
  destruct (String.eqb name "__proto__") eqn:E.
  - apply String.eqb_eq in E. subst name. split; [discriminate|].
    intros [v Hv]. vm_compute in Hv. discriminate Hv.
  - destruct (Object_prototype !! name) as [v|] eqn:Hv; cbn [default].
    + split; [eauto|]. intros _. eapply Object_prototype_functions, Hv.
    + split; [discriminate|]. intros [v Hv']. discriminate Hv'.
Qed.

Section unknown_method.

Variable JSON_parse : string -> option jsval.
Variable parseVirtualPath : jsval -> ServerRequest -> completion string.
Variable vfs_request : ServerRequest -> string -> jsval -> outcome jsval.
Variable instance : ServerInstance.

Local Abbreviation request := (request JSON_parse parseVirtualPath vfs_request instance).

(** The reply to a name that does not pass the guard. *)
Lemma unknown_method_reply (http : ServerRequest) (v : jsval) :
  String.eqb (request_method http) "GET" = false -> isfs http = false ->
  String.eqb (API_typeof instance (endpoint http)) "function" = false ->
  auth_initSession (AUTH instance) http = Resolved v ->
  trace (request http)
  = [EvInitSession; EvRespondJson (JStr "No such API method") None (Some 500%Z)].
Proof.
  intros Hget Hfs Hty Hinit. now rewrite request_trace, Hinit, Hget, Hfs, Hty.
Qed.

(** The reply to a name that is not registered but inherited: never the
    one of an unknown method. *)
Lemma inherited_method_reply (http : ServerRequest) (res : option jsval) :
  String.eqb (request_method http) "GET" = false -> isfs http = false ->
  API instance !! endpoint http = None ->
  is_Some (Object_prototype !! endpoint http) ->
  ~ In (EvRespondJson (JStr "No such API method") res (Some 500%Z))
       (trace (request http)).
Proof.
  intros Hget Hfs Hnone Hinh Hin.
  apply (API_typeof_unregistered instance _ Hnone) in Hinh.
  rewrite request_trace, Hget, Hfs, Hinh, _apiCall_trace in Hin.
  unfold Handler in *. rewrite Hnone in Hin.
  cbn [String.eqb Ascii.eqb Bool.eqb] in Hin.
  assert (forall t, Forall (fun ev => is_check_event ev || is_denial ev = true) t ->
                    ~ In (EvRespondJson (JStr "No such API method") res (Some 500%Z)) t)
    as Hno.
  { intros t Hall H. rewrite List.Forall_forall in Hall.
    specialize (Hall _ H). discriminate Hall. }
  destruct Hin as [Hin|Hin]; [discriminate Hin|].
  destruct (auth_initSession (AUTH instance) http); try contradiction.
  apply in_app_or in Hin. destruct Hin as [Hin|Hin].
  - revert Hin. apply Hno, _checkPermission_denials.
  - destruct (result _); try contradiction.
    revert Hin. apply Hno.
    eapply Forall_impl; [apply _rejectResponse_denials|].
    intros ev H. cbn beta in *. rewrite H. apply orb_true_r.
Qed.

End unknown_method.

(** ** The deployment at work *)

(** C6, at a request the code mishandles.  [POST /API/toString] names no
    registered API method, yet it is dispatched as an API call: the caller
    gets the authorization failure of the API group check with status 403,
    not the reply of an unknown method with status 500. *)
Theorem inherited_name_is_dispatched :
  API Demo.instance !! endpoint Demo.call_toString = None
  /\ Demo.run Demo.call_toString
     = [EvInitSession; EvCheck CkSession Passed; EvCheck CkAuthenticator Passed;
        EvCheck CkApi Failed;
        EvRespondJson (JStr "Access denied!") (Some (JBool false)) (Some 403%Z)].
Proof. split; reflexivity. Qed.





(** ** The theorems at concrete requests *)

(** C1 on an anonymous write: the mysql authenticator rejects the session
    and no backend is called. *)
Lemma no_session_no_backend_call_witness :
  auth_checkSession (AUTH Demo.instance) Demo.anonymous_write
  = Rejected (JStr "You have no OS.js Session, please log in!")
  /\ is_api_login Demo.anonymous_write = false
  /\ backend_calls (Demo.run Demo.anonymous_write) = [].
Proof.
  split; [reflexivity|]. split; [reflexivity|].
  apply (no_session_no_backend_call Demo.JSON_parse Demo.parseVirtualPath Demo.vfs_request
           Demo.instance Demo.anonymous_write
           (JStr "You have no OS.js Session, please log in!"));
    reflexivity.
Defined.



(** C5 on the administrator: a group list she does not hold, an API method
    restricted to a group she does not hold, and a restricted protocol. *)
Lemma admin_passes_group_checks_witness :
  hasGroup Demo.JSON_parse (Req Demo.write_shared) (Val (JArr [JStr "staff"])) (Val JUndefined)
  = Normal true
  /\ result (checkApiPermission Demo.JSON_parse Demo.instance Demo.write_shared Tapi
               {| o_method := Some "curl"; o_args := JUndefined; o_path := None |})
     = Resolved JUndefined
  /\ protocol_group_denies Demo.JSON_parse Demo.instance Demo.write_shared "osjs"
     = Normal false.
Proof.
  apply (admin_passes_group_checks Demo.JSON_parse Demo.instance Demo.write_shared).
  exists [JStr "fs"; JStr "admin"]. split; [reflexivity|]. right. now left.
Defined.

(** C7 on [GET /FS/get/home:///a.txt]. *)
Lemma get_route_reads_witness :
  vfs_method Demo.get_file = "read"
  /\ vfs_args Demo.get_file = Demo.path_arg "home:///a.txt"
  /\ In (EvVfsRequest "read" (Demo.path_arg "home:///a.txt")) (Demo.run Demo.get_file).
Proof.
  destruct (get_route_reads Demo.JSON_parse Demo.parseVirtualPath Demo.vfs_request
              Demo.instance Demo.get_file "home:///a.txt" eq_refl eq_refl)
    as (Hm & Ha & _ & Hrun).
  split; [exact Hm|]. split; [exact Ha|].
  apply (Hrun (JBool true) JUndefined); reflexivity.
Defined.


(** C9 on a request without a session: the required list [['fs']] is
    refused, the empty list is accepted. *)
Lemma hasGroup_default_and_unreadable_witness :
  hasGroup Demo.JSON_parse (Req Demo.anonymous_write) (Val (JArr [JStr "fs"])) (Val JUndefined)
  = Normal false
  /\ hasGroup Demo.JSON_parse (Req Demo.anonymous_write) (Val (JArr [])) (Val JUndefined)
     = Normal true.
Proof.
  split.
  - apply (hasGroup_default_and_unreadable Demo.JSON_parse (Req Demo.anonymous_write)
             (Val (JArr [JStr "fs"])) (Val JUndefined)).
    + split; reflexivity.
    + intros _ h [= <-]. now left.
  - apply (hasGroup_default_and_unreadable Demo.JSON_parse (Req Demo.anonymous_write)
             (Val (JArr [])) (Val JUndefined)).
    + split; reflexivity.
    + discriminate.
Defined.

(** C10 on the user for whom the storage module fails. *)
Lemma blacklist_failure_is_denied_witness :
  getBlacklist (STORAGE Demo.instance) (session_get (Demo.package_of Demo.ghost) "username")
  = Rejected (JStr "connection lost")
  /\ result (checkPermission Demo.JSON_parse Demo.parseVirtualPath Demo.instance
               (Demo.package_of Demo.ghost) Tpackage (package_options "default/Settings"))
     = Rejected (JStr "Access Denied!").
Proof.
  split; [reflexivity|].
  destruct (blacklist_failure_is_denied Demo.JSON_parse Demo.parseVirtualPath Demo.instance
              (Demo.package_of Demo.ghost) (package_options "default/Settings")
              (JStr "connection lost") eq_refl) as [_ Hpipe].
  apply Hpipe. vm_compute. tauto.
Defined.

(** ** Further runs of the deployment *)

Example login_skips_the_checks :
  Demo.run (Demo.post_api "login" (JStr "credentials") Demo.no_session)
  = [EvInitSession; EvApiHandler "login" (JStr "credentials");
     EvRespondJson JNull (Some (JStr "credentials")) None].
Proof. reflexivity. Qed.

Example unknown_method_example :
  Demo.run (Demo.post_api "doesNotExist" JNull Demo.bob)
  = [EvInitSession; EvRespondJson (JStr "No such API method") None (Some 500%Z)].
Proof. reflexivity. Qed.

Example api_call_example :
  Demo.run (Demo.post_api "application" (JStr "test") Demo.bob)
  = [EvInitSession; EvCheck CkSession Passed; EvCheck CkAuthenticator Passed;
     EvCheck CkApi Passed; EvCheck CkMount Passed; EvCheck CkPackage Passed;
     EvApiHandler "application" (JStr "test");
     EvRespondJson JNull (Some (JStr "test")) None].
Proof. reflexivity. Qed.

Example api_group_example :
  Demo.run (Demo.post_api "curl" JNull Demo.bob)
  = [EvInitSession; EvCheck CkSession Passed; EvCheck CkAuthenticator Passed;
     EvCheck CkApi Failed;
     EvRespondJson (JStr "Access denied!") (Some (JBool false)) (Some 403%Z)].
Proof. reflexivity. Qed.

Example anonymous_write_example :
  Demo.run Demo.anonymous_write
  = [EvInitSession; EvCheck CkSession Failed;
     EvRespondJson (JStr "You have no OS.js Session, please log in!")
                   (Some (JBool false)) (Some 403%Z)].
Proof. reflexivity. Qed.

Example readonly_write_example :
  Demo.run Demo.write_shared
  = [EvInitSession; EvCheck CkSession Passed; EvCheck CkAuthenticator Passed;
     EvCheck CkApi Passed; EvCheck CkMount Failed;
     EvRespondJson (JStr "Access Denied!") (Some (JBool false)) (Some 403%Z)].
Proof. reflexivity. Qed.

Example package_served_example :
  Demo.run (Demo.package_of Demo.bob)
  = [EvInitSession; EvCheck CkSession Passed; EvCheck CkAuthenticator Passed;
     EvCheck CkApi Passed; EvCheck CkMount Passed; EvGetBlacklist (JStr "bob");
     EvCheck CkPackage Passed; EvCheck CkSession Passed;
     EvRespondFile ["/opt/osjs"; "dist"; "/packages/default/Settings/main.js"]].
Proof. reflexivity. Qed.

Example package_blacklisted_example :
  Demo.run (Demo.package_of Demo.guest)
  = [EvInitSession; EvCheck CkSession Passed; EvCheck CkAuthenticator Passed;
     EvCheck CkApi Passed; EvCheck CkMount Passed; EvGetBlacklist (JStr "guest");
     EvCheck CkPackage Failed; EvRespondError (JStr "Access Denied!") 403].
Proof. reflexivity. Qed.

Example package_anonymous_example :
  Demo.run (Demo.package_of Demo.no_session)
  = [EvInitSession; EvCheck CkSession Failed;
     EvRespondError (JStr "You have no OS.js Session, please log in!") 403].
Proof. reflexivity. Qed.

Example static_file_example :
  Demo.run (Demo.get_static "/index.html" Demo.no_session)
  = [EvInitSession; EvRespondFile ["/opt/osjs"; "dist"; "/index.html"]].
Proof. reflexivity. Qed.

(** * Further properties of the code *)

(** ** [hasGroup] on the shapes a session's groups can take *)

Section hasGroup_shapes.

Variable JSON_parse : string -> option jsval.
Variable instance : ServerInstance.

Lemma js_every_forallb (f : jsval -> completion bool) (g : jsval -> bool) (l : list jsval) :
  (forall x, f x = Normal (g x)) -> js_every f l = Normal (forallb g l).
Proof.
  intros Hf. induction l as [|x rest IH]; [reflexivity|].
  cbn [js_every forallb]. rewrite Hf. destruct (g x); [exact IH|reflexivity].
Qed.

Lemma js_some_existsb (f : jsval -> completion bool) (g : jsval -> bool) (l : list jsval) :
  (forall x, f x = Normal (g x)) -> js_some f l = Normal (existsb g l).
Proof.
  intros Hf. induction l as [|x rest IH]; [reflexivity|].
  cbn [js_some existsb]. rewrite Hf. destruct (g x); [reflexivity|exact IH].
Qed.

(** X1.  For a caller whose groups are a JSON array without [admin],
    [hasGroup] on a non-empty list answers whether the caller holds every
    listed group, or, when [all] is given and falsy, whether the caller
    holds at least one of them. *)
Theorem hasGroup_every_or_some
    (h : ServerRequest) (ug : list jsval) (g : jsval) (rest : list jsval) (all : jsarg) :
  JSON_parse (js_ToString (session_get h "groups")) = Some (JArr ug) ->
  member_of ug (JStr "admin") = false ->
  hasGroup JSON_parse (Req h) (Val (JArr (g :: rest))) all
  = Normal (if wants_every all then forallb (member_of ug) (g :: rest)
            else existsb (member_of ug) (g :: rest)).
Proof.
  intros Hparse Hadmin. unfold hasGroup, userGroups. rewrite Hparse.
  cbn [js_truthy js_indexOf_found cbind]. fold (member_of ug (JStr "admin")).
  rewrite Hadmin. fold (wants_every all).
  destruct (wants_every all).
  - now apply js_every_forallb.
  - now apply js_some_existsb.
Qed.

(** X2.  When the session's groups are the JSON text of a string, group
    names are searched for as substrings of it: a string in which [admin]
    occurs anywhere makes the caller an administrator. *)
Theorem hasGroup_substring_admin (h : ServerRequest) (s : string) (groupList all : jsarg) :
  JSON_parse (js_ToString (session_get h "groups")) = Some (JStr s) ->
  js_includes "admin" s = true ->
  hasGroup JSON_parse (Req h) groupList all = Normal true.
Proof.
  intros Hparse Hsub.
  destruct (nonempty_array groupList) eqn:Hne; [|now apply hasGroup_not_array].
  destruct groupList as [[| | | | |[|g rest]| | |]| |]; try discriminate Hne.
  unfold hasGroup, userGroups. rewrite Hparse.
  assert (js_truthy (JStr s) = true) as ->.
  { destruct s; [discriminate Hsub|reflexivity]. }
  cbn [js_indexOf_found js_ToString cbind]. now rewrite Hsub.
Qed.

(** X3.  When the session's groups parse to a truthy value that is neither
    an array nor a string (a number, [true], an object), [hasGroup] throws
    on every non-empty list, and the API group check of an [fs] request
    rejects with the error thrown instead of resolving. *)
Theorem hasGroup_malformed_groups_throw
    (h : ServerRequest) (v g : jsval) (rest : list jsval) (all : jsarg) (options : Options) :
  JSON_parse (js_ToString (session_get h "groups")) = Some v ->
  js_truthy v = true ->
  (forall l, v <> JArr l) -> (forall s, v <> JStr s) ->
  exists message,
    hasGroup JSON_parse (Req h) (Val (JArr (g :: rest))) all = Throw (TypeError message)
    /\ result (checkApiPermission JSON_parse instance h Tfs options)
       = Rejected (TypeError message).
Proof.
  intros Hparse Htruthy Harr Hstr. exists "indexOf is not a function".
  assert (forall g rest all,
             hasGroup JSON_parse (Req h) (Val (JArr (g :: rest))) all
             = Throw (TypeError "indexOf is not a function")) as Hthrow.
  { intros g' rest' all'. unfold hasGroup, userGroups. rewrite Hparse, Htruthy.
    destruct v; try reflexivity; [now destruct (Hstr s)|now destruct (Harr elems)]. }
  split; [apply Hthrow|].
  rewrite checkApiPermission_result. cbn [api_checks ptype_name]. now rewrite Hthrow.
Qed.

End hasGroup_shapes.

(** ** The mount check, the package check and the authenticator's hook *)

Section more_checks.

Variable JSON_parse : string -> option jsval.
Variable parseVirtualPath : jsval -> ServerRequest -> completion string.
Variable instance : ServerInstance.

Local Abbreviation checkMountPermission :=
  (checkMountPermission JSON_parse parseVirtualPath instance).
Local Abbreviation checkPermission := (checkPermission JSON_parse parseVirtualPath instance).

Lemma strict_equals_bool_false (v : jsval) (b : bool) :
  v <> JBool b -> strict_equals v (JBool b) = false.
Proof.
  destruct v as [| |b'| | | | | |]; try reflexivity.
  intros H. cbn. destruct b', b; try reflexivity; now destruct H.
Qed.

Lemma not_mutating (options : Options) :
  (forall m, o_method options = Some m -> ~ In m writeableMap) ->
  match o_method options with
  | Some method => existsb (String.eqb method) writeableMap
  | None => false
  end = false.
Proof.
  intros H. destruct (o_method options) as [m|]; [|reflexivity].
  destruct (existsb (String.eqb m) writeableMap) eqn:E; [|reflexivity].
  apply existsb_exists in E as (x & Hin & Heq).
  apply String.eqb_eq in Heq. subst x. now destruct (H m eq_refl).
Qed.


(** X5.  A mount whose entry is an object denies nothing else: when
    [enabled] is not [false], and either [ro] is not [true] or the
    operation is none of the six mutating ones, the mount check
    resolves. *)
Theorem enabled_mount_allows
    (http : ServerRequest) (options : Options) (protocol : string)
    (mounts props : gmap string jsval) :
  parseVirtualPath (o_args options) http = Normal protocol ->
  vfs_mounts (CONFIG instance) = Some mounts ->
  mounts !! protocol = Some (JObj props) ->
  obj_get props "enabled" <> JBool false ->
  (obj_get props "ro" <> JBool true
   \/ forall m, o_method options = Some m -> ~ In m writeableMap) ->
  checkMountPermission http Tfs options = ([EvCheck CkMount Passed], Resolved JUndefined).
Proof.
  intros Hparse Hmounts Hmount Hen Hro.
  assert (mount_denies options (JObj props) = Normal false) as Hdenies.
  { unfold mount_denies. cbn [js_typeof js_get cbind]. rewrite String.eqb_refl.
    rewrite (strict_equals_bool_false _ false Hen).
    destruct Hro as [Hro|Hro].
    - now rewrite (strict_equals_bool_false _ true Hro).
    - rewrite (not_mutating options Hro). now rewrite andb_false_r. }
  unfold checkMountPermission, _check. rewrite Hparse, Hmounts. simpl.
  unfold obj_get at 1. rewrite Hmount. simpl. rewrite Hdenies. simpl.
  now rewrite protocol_group_never_denies.
Qed.



(** X8.  When the storage module answers with an array, the package check
    rejects with ['Access Denied!'] exactly when the requested package
    path is an element of it; it asks the storage module once, for the
    session's user name. *)
Theorem blacklist_decides
    (http : ServerRequest) (options : Options) (blacklist : list jsval) (p : string) :
  getBlacklist (STORAGE instance) (session_get http "username") = Resolved (JArr blacklist) ->
  o_path options = Some p ->
  checkPackagePermission instance http Tpackage options
  = if member_of blacklist (JStr p)
    then ([EvGetBlacklist (session_get http "username"); EvCheck CkPackage Failed],
          Rejected (JStr "Access Denied!"))
    else ([EvGetBlacklist (session_get http "username"); EvCheck CkPackage Passed],
          Resolved JUndefined).
Proof.
  intros Hbl Hp. unfold checkPackagePermission.
  cbn [emit await and_then]. rewrite Hbl, Hp.
  cbn [js_truthy js_indexOf_found from_option]. fold (member_of blacklist (JStr p)).
  now destruct (member_of blacklist (JStr p)).
Qed.

(** X9.  An authenticator whose hook resolves with a falsy value other
    than [undefined] waives the checks of [lib/auth.js]: the permission
    check resolves at once, without the API group check, the mount check
    or the package check being run. *)
Theorem hook_waives_checks
    (http : ServerRequest) (type : ptype) (options : Options) (checkGroups : jsval) :
  auth_checkPermission (AUTH instance) http type options = Resolved checkGroups ->
  checkGroups <> JUndefined -> js_truthy checkGroups = false ->
  checkPermission http type options = ([EvCheck CkAuthenticator Passed], Resolved JUndefined).
Proof.
  intros Hhook Hdef Hfalsy. rewrite checkPermission_unfold, Hhook.
  assert (String.eqb (js_typeof checkGroups) "undefined" = false) as ->.
  { destruct checkGroups; try reflexivity. now destruct Hdef. }
  now rewrite Hfalsy.
Qed.

End more_checks.

(** ** The package pattern *)

Lemma prefix_empty (s : string) : String.prefix "" s = true.
Proof. now destruct s. Qed.

Lemma prefix_append (a b : string) : String.prefix a (a +:+ b) = true.
Proof.
  induction a as [|c a IH]; [apply prefix_empty|].
  change (String c a +:+ b) with (String c (a +:+ b)). cbn [String.prefix].
  now destruct (Ascii.ascii_dec c c).
Qed.

Lemma drop_string_append (a b : string) : drop_string (String.length a) (a +:+ b) = b.
Proof.
  unfold drop_string. induction a as [|c a IH].
  - change ("" +:+ b) with b. cbn [String.length]. rewrite Nat.sub_0_r.
    apply substring_all.
  - exact IH.
Qed.

Lemma chars_append (a b : string) : chars (a +:+ b) = chars a ++ chars b.
Proof.
  unfold chars. induction a as [|c a IH]; [reflexivity|].
  change (String c a +:+ b) with (String c (a +:+ b)).
  cbn [String.list_ascii_of_string app]. now rewrite IH.
Qed.

Lemma first_line_whole (s : string) : has_line_terminator s = false -> first_line s = s.
Proof.
  induction s as [|c s IH]; [reflexivity|].
  cbn [has_line_terminator first_line]. intros H.
  apply orb_false_elim in H as [Hc Hs]. rewrite Hc. now rewrite IH.
Qed.

(** A slash is part of no line terminator: whether one starts at the head
    of a string is decided before the first slash. *)
Lemma prefix_before_slash (p a b : string) :
  has_slash p = false ->
  String.prefix p (a +:+ "/" +:+ b) = String.prefix p a.
Proof.
  unfold has_slash, chars. revert a.
  induction p as [|x p IH]; intros a Hp.
  - now rewrite !prefix_empty.
  - cbn [String.list_ascii_of_string existsb] in Hp.
    apply orb_false_elim in Hp as [Hx Hp].
    destruct a as [|c a].
    + change ("" +:+ "/" +:+ b) with (String "/"%char b). cbn [String.prefix].
      destruct (Ascii.ascii_dec x "/") as [->|_]; [|reflexivity].
      now rewrite Ascii.eqb_refl in Hx.
    + change (String c a +:+ "/" +:+ b) with (String c (a +:+ "/" +:+ b)).
      cbn [String.prefix]. destruct (Ascii.ascii_dec x c); [now apply IH|reflexivity].
Qed.

Lemma at_line_terminator_before_slash (a b : string) :
  at_line_terminator (a +:+ "/" +:+ b) = at_line_terminator a.
Proof.
  unfold at_line_terminator, line_terminators. cbn [existsb].
  now rewrite !prefix_before_slash by reflexivity.
Qed.

Lemma has_line_terminator_path (a b : string) :
  has_line_terminator (a +:+ "/" +:+ b) = has_line_terminator a || has_line_terminator b.
Proof.
  induction a as [|c a IH]; [reflexivity|].
  change (String c a +:+ "/" +:+ b) with (String c (a +:+ "/" +:+ b)).
  cbn [has_line_terminator]. rewrite IH, <- orb_assoc. f_equal.
  exact (at_line_terminator_before_slash (String c a) b).
Qed.

Lemma split_last_slash_none (s : string) : has_slash s = false -> split_last_slash s = None.
Proof.
  unfold has_slash, chars. induction s as [|c s IH]; [reflexivity|].
  cbn [String.list_ascii_of_string existsb split_last_slash]. intros H.
  apply orb_false_elim in H as [Hc Hs]. rewrite (IH Hs).
  now rewrite Ascii.eqb_sym, Hc.
Qed.

Lemma split_last_slash_append (name file : string) :
  has_slash file = false -> split_last_slash (name +:+ "/" +:+ file) = Some (name, file).
Proof.
  intros Hfile. induction name as [|c name IH].
  - change ("" +:+ "/" +:+ file) with (String "/"%char file).
    cbn [split_last_slash]. now rewrite (split_last_slash_none file Hfile).
  - change (String c name +:+ "/" +:+ file) with (String c (name +:+ "/" +:+ file)).
    cbn [split_last_slash]. now rewrite IH.
Qed.



Lemma js_includes_slash (s : string) : js_includes "/" s = has_slash s.
Proof.
  unfold has_slash, chars. induction s as [|c s IH]; [reflexivity|].
  cbn [String.list_ascii_of_string existsb js_includes String.prefix]. rewrite IH.
  destruct (Ascii.ascii_dec "/" c) as [<-|Hne].
  - now rewrite prefix_empty.
  - apply Ascii.eqb_neq in Hne. now rewrite Hne.
Qed.

Lemma package_match_packages (rest : string) :
  package_match ("/" +:+ "packages/" +:+ rest)
  = match split_last_slash (first_line rest) with
    | Some (name, file) => if has_slash name then Some (name, file) else None
    | None => None
    end
  /\ package_match ("packages/" +:+ rest)
     = match split_last_slash (first_line rest) with
       | Some (name, file) => if has_slash name then Some (name, file) else None
       | None => None
       end.
Proof.
  unfold package_match.
  rewrite (prefix_append "/").
  replace (drop_string 1 ("/" +:+ "packages/" +:+ rest)) with ("packages/" +:+ rest)
    by (symmetry; apply (drop_string_append "/")).
  replace (String.prefix "/" ("packages/" +:+ rest)) with false by reflexivity.
  rewrite (prefix_append "packages/").
  replace (drop_string 9 ("packages/" +:+ rest)) with rest
    by (symmetry; apply (drop_string_append "packages/")).
  split; destruct (split_last_slash (first_line rest)) as [[name file]|];
    try reflexivity; now rewrite js_includes_slash.
Qed.

(** X10.  The package pattern, read back: for a package name that holds a
    slash and a file name that holds none (neither with a line
    terminator), the path [/packages/<name>/<file>], with or without its
    leading slash, yields exactly [name] and [file]. *)
Theorem package_match_round_trip (name file : string) :
  has_slash name = true -> has_slash file = false ->
  has_line_terminator name = false -> has_line_terminator file = false ->
  package_match ("/" +:+ "packages/" +:+ name +:+ "/" +:+ file) = Some (name, file)
  /\ package_match ("packages/" +:+ name +:+ "/" +:+ file) = Some (name, file).
Proof.
  intros Hname Hfile Hn Hf.
  assert (first_line (name +:+ "/" +:+ file) = name +:+ "/" +:+ file) as Hline.
  { apply first_line_whole. now rewrite has_line_terminator_path, Hn, Hf. }
  destruct (package_match_packages (name +:+ "/" +:+ file)) as [H1 H2].
  rewrite H1, H2, Hline, (split_last_slash_append name file Hfile), Hname. now split.
Qed.

Section static_files.

Variable JSON_parse : string -> option jsval.
Variable parseVirtualPath : jsval -> ServerRequest -> completion string.
Variable vfs_request : ServerRequest -> string -> jsval -> outcome jsval.
Variable instance : ServerInstance.

Local Abbreviation request := (request JSON_parse parseVirtualPath vfs_request instance).


End static_files.

(** ** Replies of the dispatcher *)

Lemma no_storage_in_responses (t : list event) :
  Forall (fun ev => is_response ev = true) t -> List.filter is_storage_call t = [].
Proof.
  induction 1 as [|ev t Hev _ IH]; [reflexivity|].
  destruct ev; try discriminate Hev; exact IH.
Qed.

Lemma no_file_in_responses (t : list event) :
  Forall (fun ev => is_response ev = true) t -> List.filter is_served t = [].
Proof.
  induction 1 as [|ev t Hev _ IH]; [reflexivity|].
  destruct ev; try discriminate Hev; exact IH.
Qed.

Section replies.

Variable JSON_parse : string -> option jsval.
Variable parseVirtualPath : jsval -> ServerRequest -> completion string.
Variable vfs_request : ServerRequest -> string -> jsval -> outcome jsval.
Variable instance : ServerInstance.

Local Abbreviation checkPermission := (checkPermission JSON_parse parseVirtualPath instance).
Local Abbreviation _checkPermission := (_checkPermission JSON_parse parseVirtualPath instance).
Local Abbreviation _vfsCall := (_vfsCall JSON_parse parseVirtualPath vfs_request instance).
Local Abbreviation _apiCall := (_apiCall JSON_parse parseVirtualPath instance).
Local Abbreviation _staticResponse := (_staticResponse JSON_parse parseVirtualPath instance).
Local Abbreviation request := (request JSON_parse parseVirtualPath vfs_request instance).

Lemma _rejectResponse_one_reply (http : ServerRequest) (e : jsval) :
  length (replies (trace (_rejectResponse http e))) <= 1.
Proof.
  unfold _rejectResponse.
  destruct e; try (destruct (negb _ && negb _)); cbn; lia.
Qed.

Lemma settled_reply_one_reply (http : ServerRequest) (o : outcome jsval) :
  length (replies (settled_reply http o)) <= 1.
Proof.
  destruct o as [r|e|]; cbn [settled_reply]; [cbn; lia|apply _rejectResponse_one_reply|cbn; lia].
Qed.

(** A resolved authorization has sent nothing; any other has sent at most
    one reply. *)
Lemma _checkPermission_replies (http : ServerRequest) (type : ptype) (options : Options) :
  match result (_checkPermission http type options) with
  | Resolved _ => replies (trace (_checkPermission http type options)) = []
  | _ => length (replies (trace (_checkPermission http type options))) <= 1
  end.
Proof.
  pose proof (replies_of_checks _ (checkPermission_events JSON_parse parseVirtualPath
                                      instance http type options)) as Hc.
  pose proof (_rejectResponse_one_reply http) as Hr.
  rewrite _checkPermission_cases.
  destruct (skip type options); [reflexivity|].
  unfold trace, result in *.
  destruct (auth_checkSession (AUTH instance) http) as [s|e|]; cbn [fst snd].
  - destruct (snd (checkPermission http type options)) as [v|e|]; cbn [fst snd].
    + exact Hc.
    + change (replies (EvCheck CkSession Passed :: ?t)) with (replies t).
      rewrite replies_app, Hc. apply Hr.
    + change (replies (EvCheck CkSession Passed :: ?t)) with (replies t).
      rewrite Hc. cbn. lia.
  - apply Hr.
  - cbn. lia.
Qed.

(** X12.  Whatever the request and whatever the collaborators answer, the
    dispatcher sends at most one reply (JSON envelope, plain error or
    file). *)
Theorem at_most_one_reply (http : ServerRequest) :
  length (replies (trace (request http))) <= 1.
Proof.
  assert (forall type options (tail : list event),
             length (replies tail) <= 1 ->
             length (replies (trace (_checkPermission http type options) ++
                              match result (_checkPermission http type options) with
                              | Resolved _ => tail
                              | _ => []
                              end)) <= 1) as Hroute.
  { intros type options tail Htail.
    pose proof (_checkPermission_replies http type options) as Hp.
    rewrite replies_app.
    destruct (result (_checkPermission http type options)).
    - now rewrite Hp.
    - now rewrite app_nil_r.
    - now rewrite app_nil_r. }
  assert (length (replies (trace (_vfsCall http))) <= 1) as Hvfs.
  { rewrite _vfsCall_trace. apply Hroute.
    change (replies (EvVfsRequest ?m ?a :: ?t)) with (replies t).
    apply settled_reply_one_reply. }
  assert (length (replies (trace (_apiCall http))) <= 1) as Hapi.
  { rewrite _apiCall_trace. apply Hroute.
    destruct (API instance !! endpoint http) as [handler|].
    - change (replies (EvApiHandler ?m ?a :: ?t)) with (replies t).
      apply settled_reply_one_reply.
    - apply _rejectResponse_one_reply. }
  assert (length (replies (trace (_staticResponse http))) <= 1) as Hstatic.
  { rewrite _staticResponse_trace.
    destruct (package_match (path http)) as [[name file]|]; [|cbn; lia].
    apply Hroute. destruct (auth_checkSession (AUTH instance) http); cbn; lia. }
  rewrite request_trace. change (replies (EvInitSession :: ?t)) with (replies t).
  destruct (auth_initSession (AUTH instance) http); try (cbn; lia).
  destruct (String.eqb (request_method http) "GET"), (isfs http); try assumption.
  destruct (String.eqb (API_typeof instance (endpoint http)) "function");
    [assumption|cbn; lia].
Qed.


(** X14.  A transport operation that fails with a string, a boolean, a
    number or an [Error] is answered with the JSON envelope
    [{error: String(reason), result: false}] and status 403, the status of
    an authorization failure. *)
Theorem transport_failure_is_403 (http : ServerRequest) (e v w : jsval) :
  isfs http = true ->
  auth_initSession (AUTH instance) http = Resolved v ->
  result (_checkPermission http Tfs (fs_options http)) = Resolved w ->
  vfs_request http (vfs_method http) (vfs_args http) = Rejected e ->
  is_plain_reason e = true ->
  trace (request http)
  = EvInitSession :: trace (_checkPermission http Tfs (fs_options http))
      ++ [EvVfsRequest (vfs_method http) (vfs_args http);
          EvRespondJson (JStr (js_ToString e)) (Some (JBool false)) (Some 403%Z)].
Proof.
  intros Hfs Hinit Hauth Hfail Hplain.
  assert (e <> JUndefined) as H1 by (intros ->; discriminate Hplain).
  assert (e <> JNull) as H2 by (intros ->; discriminate Hplain).
  rewrite request_trace, Hinit, Hfs.
  assert (trace (_vfsCall http)
          = trace (_checkPermission http Tfs (fs_options http))
            ++ [EvVfsRequest (vfs_method http) (vfs_args http);
                EvRespondJson (JStr (js_ToString e)) (Some (JBool false)) (Some 403%Z)])
    as ->.
  { rewrite _vfsCall_trace, Hauth, Hfail. cbn [settled_reply].
    rewrite (_rejectResponse_sent http e H1 H2), Hfs. reflexivity. }
  now destruct (String.eqb (request_method http) "GET").
Qed.

(** X15.  An authorized call of a registered API method invokes that
    method once, with the request and its data, and its result [r] is
    answered as [{error: null, result: r}] with the default status. *)
Theorem api_result_is_passed_through
    (http : ServerRequest) (handler : Handler) (r v w : jsval) :
  String.eqb (request_method http) "GET" = false -> isfs http = false ->
  API instance !! endpoint http = Some handler ->
  auth_initSession (AUTH instance) http = Resolved v ->
  result (_checkPermission http Tapi (api_options http)) = Resolved w ->
  handler http (data http) = Resolved r ->
  trace (request http)
  = EvInitSession :: trace (_checkPermission http Tapi (api_options http))
      ++ [EvApiHandler (endpoint http) (data http); EvRespondJson JNull (Some r) None].
Proof.
  intros Hget Hfs Hreg Hinit Hauth Hres.
  assert (API_typeof instance (endpoint http) = "function") as Hty.
  { unfold API_typeof. unfold Handler in *. now rewrite Hreg. }
  rewrite request_trace, Hinit, Hget, Hfs, Hty, _apiCall_trace, Hauth.
  unfold Handler in *. now rewrite Hreg, Hres.
Qed.

Lemma checkPermission_off_lane (http : ServerRequest) (type : ptype) (options : Options) :
  type <> Tpackage ->
  List.filter (fun ev => is_storage_call ev || is_served ev)
              (trace (checkPermission http type options)) = [].
Proof.
  intros Htype. rewrite checkPermission_unfold.
  destruct (auth_checkPermission _ _ _ _) as [cg|e|]; try reflexivity.
  destruct (js_truthy _); try reflexivity.
  destruct (result (checkApiPermission _ _ _ _ _)); try reflexivity.
  destruct (result (checkMountPermission _ _ _ _ _ _)); try reflexivity.
  destruct type; try reflexivity. now destruct Htype.
Qed.

Lemma responses_off_lane (t : list event) :
  Forall (fun ev => is_response ev = true) t ->
  List.filter (fun ev => is_storage_call ev || is_served ev) t = [].
Proof.
  induction 1 as [|ev t Hev _ IH]; [reflexivity|].
  destruct ev; try discriminate Hev; exact IH.
Qed.

Lemma _checkPermission_off_lane (http : ServerRequest) (type : ptype) (options : Options) :
  type <> Tpackage ->
  List.filter (fun ev => is_storage_call ev || is_served ev)
              (trace (_checkPermission http type options)) = [].
Proof.
  intros Htype.
  pose proof (checkPermission_off_lane http type options Htype) as Hc.
  pose proof (fun e => responses_off_lane _ (_rejectResponse_responses http e)) as Hr.
  rewrite _checkPermission_cases.
  destruct (skip type options); [reflexivity|].
  unfold trace, result in *.
  destruct (auth_checkSession (AUTH instance) http) as [s|e|]; cbn [fst snd].
  - destruct (snd (checkPermission http type options)) as [v|e|]; cbn [fst snd].
    + exact Hc.
    + change (List.filter ?P (EvCheck CkSession Passed :: ?t)) with (List.filter P t).
      now rewrite List.filter_app, Hc, Hr.
    + exact Hc.
  - apply Hr.
  - reflexivity.
Qed.

(** X16.  Requests in the VFS namespace and requests with a method other
    than [GET] never make the dispatcher ask the storage module for a
    blacklist and never get a file served. *)
Theorem vfs_and_api_requests_stay_on_their_route (http : ServerRequest) :
  isfs http = true \/ String.eqb (request_method http) "GET" = false ->
  List.filter (fun ev => is_storage_call ev || is_served ev) (trace (request http)) = [].
Proof.
  intros Hroute.
  assert (forall o, List.filter (fun ev => is_storage_call ev || is_served ev)
                                (settled_reply http o) = []) as Hreply.
  { intros o. apply responses_off_lane, settled_reply_responses. }
  assert (List.filter (fun ev => is_storage_call ev || is_served ev)
                      (trace (_vfsCall http)) = []) as Hvfs.
  { rewrite _vfsCall_trace, List.filter_app, _checkPermission_off_lane by discriminate.
    destruct (result _); try reflexivity. apply Hreply. }
  assert (List.filter (fun ev => is_storage_call ev || is_served ev)
                      (trace (_apiCall http)) = []) as Hapi.
  { rewrite _apiCall_trace, List.filter_app, _checkPermission_off_lane by discriminate.
    destruct (result _); try reflexivity.
    destruct (API instance !! endpoint http) as [handler|].
    - apply Hreply.
    - apply responses_off_lane, _rejectResponse_responses. }
  rewrite request_trace.
  change (List.filter ?P (EvInitSession :: ?t)) with (List.filter P t).
  destruct (auth_initSession (AUTH instance) http); try reflexivity.
  destruct (String.eqb (request_method http) "GET") eqn:Hget, (isfs http) eqn:Hfs;
    try assumption.
  - destruct Hroute; discriminate.
  - now destruct (String.eqb (API_typeof instance (endpoint http)) "function").
Qed.

(** X17.  A session check that rejects without a reason ([undefined] or
    [null]) leaves a VFS request unanswered: the log line of
    [_rejectResponse] reads [err.stack] and throws before anything is
    sent. *)
Theorem rejection_without_reason_is_silent (http : ServerRequest) (e v : jsval) :
  isfs http = true ->
  auth_initSession (AUTH instance) http = Resolved v ->
  auth_checkSession (AUTH instance) http = Rejected e ->
  e = JUndefined \/ e = JNull ->
  trace (request http) = [EvInitSession; EvCheck CkSession Failed].
Proof.
  intros Hfs Hinit Hsession Hnull.
  rewrite request_trace, Hinit, Hfs.
  assert (trace (_vfsCall http) = [EvCheck CkSession Failed]) as ->.
  { rewrite _vfsCall_trace,
      (_checkPermission_no_session JSON_parse parseVirtualPath instance
         http Tfs (fs_options http) e Hsession eq_refl).
    unfold trace, result. cbn [fst snd]. now destruct Hnull; subst e. }
  now destruct (String.eqb (request_method http) "GET").
Qed.

End replies.

(** ** [login] of the mysql authenticator *)

Lemma prefix_split (p s : string) :
  String.prefix p s = true -> s = p +:+ drop_string (String.length p) s.
Proof.
  revert s. induction p as [|c p IH]; intros s H.
  - unfold drop_string. change ("" +:+ ?x) with x. cbn [String.length].
    rewrite Nat.sub_0_r. symmetry. apply substring_all.
  - destruct s as [|c' s]; [discriminate H|].
    cbn [String.prefix] in H. destruct (Ascii.ascii_dec c c') as [<-|]; [|discriminate H].
    change (String c p +:+ ?x) with (String c (p +:+ x)).
    f_equal. exact (IH s H).
Qed.

Lemma length_append (a b : string) :
  String.length (a +:+ b) = String.length a + String.length b.
Proof.
  induction a as [|c a IH]; [reflexivity|].
  change (String c a +:+ b) with (String c (a +:+ b)). cbn [String.length]. now rewrite IH.
Qed.

Import mysql_login.

(** What [fix_hash] does to a stored hash: nothing, or it swaps a leading
    [$2y] or [$2Y] for [$2a]. *)
Lemma fix_hash_cases (stored : string) :
  fix_hash stored = stored
  \/ exists rest, (stored = "$2y" +:+ rest \/ stored = "$2Y" +:+ rest)
                  /\ fix_hash stored = "$2a" +:+ rest.
Proof.
  unfold fix_hash.
  destruct (String.prefix "$2y" stored) eqn:Hy; cbn [orb andb].
  - destruct (negb _ && negb _); [|now left]. right.
    exists (drop_string 3 stored). split; [|reflexivity].
    left. exact (prefix_split "$2y" stored Hy).
  - destruct (String.prefix "$2Y" stored) eqn:HY; cbn [orb andb]; [|now left].
    destruct (negb _ && negb _); [|now left]. right.
    exists (drop_string 3 stored). split; [|reflexivity].
    right. exact (prefix_split "$2Y" stored HY).
Qed.

Lemma fix_hash_2a (rest : string) : fix_hash ("$2a" +:+ rest) = "$2a" +:+ rest.
Proof. reflexivity. Qed.

(** X18.  [fix_hash] turns the prefix [$2y] (or [$2Y]) of a hash written by
    PHP into [$2a] and keeps what follows; on every stored value it keeps
    the length, and applying it twice changes nothing more. *)
Theorem fix_hash_rewrites_prefix (stored rest : string) :
  rest <> "" -> has_line_terminator rest = false ->
  fix_hash ("$2y" +:+ rest) = "$2a" +:+ rest
  /\ fix_hash ("$2Y" +:+ rest) = "$2a" +:+ rest
  /\ String.length (fix_hash stored) = String.length stored
  /\ fix_hash (fix_hash stored) = fix_hash stored.
Proof.
  intros Hrest Hline.
  assert (negb (String.eqb rest "") && negb (has_line_terminator rest) = true) as Hcond.
  { rewrite Hline. destruct (String.eqb_spec rest ""); [contradiction|reflexivity]. }
  split; [|split; [|split]].
  - unfold fix_hash. rewrite (prefix_append "$2y" rest).
    replace (drop_string 3 ("$2y" +:+ rest)) with rest
      by (symmetry; apply (drop_string_append "$2y")).
    cbn [orb andb]. now rewrite Hcond.
  - unfold fix_hash. rewrite (prefix_append "$2Y" rest).
    replace (drop_string 3 ("$2Y" +:+ rest)) with rest
      by (symmetry; apply (drop_string_append "$2Y")).
    rewrite orb_true_r. cbn [andb]. now rewrite Hcond.
  - destruct (fix_hash_cases stored) as [->|(d & [->| ->] & ->)];
      rewrite ?length_append; reflexivity.
  - destruct (fix_hash_cases stored) as [E|(d & _ & ->)]; [now rewrite !E|].
    apply fix_hash_2a.
Qed.

Section login_facts.

Variable parseInt : jsval -> jsval.
Variable mysqlQuery : jsval -> option (jsval * option Row).
Variable bcrypt_compare : jsval -> string -> option (jsval * jsval).

Local Abbreviation login := (login parseInt mysqlQuery bcrypt_compare).

Lemma strict_equals_true (v : jsval) : strict_equals v (JBool true) = true -> v = JBool true.
Proof. destruct v as [| |[|]| | | | | |]; try discriminate; reflexivity. Qed.

(** X19.  [login] resolves exactly when the query found a row without
    error and [bcrypt.compare], given the submitted password and the
    stored hash after [fix_hash], answered [true] without error; the user
    object it resolves with has the fields [id], [username] and [name] and
    no [password].  An unknown user name and a wrong password are rejected
    with the same reason. *)
Theorem login_verifies (http : ServerRequest) (data : Credentials) (user : jsval) :
  (login http data = Resolved user <->
   exists err row stored err',
     mysqlQuery (data_username data) = Some (err, Some row)
     /\ js_truthy err = false
     /\ password row = JStr stored
     /\ bcrypt_compare (data_password data) (fix_hash stored) = Some (err', JBool true)
     /\ js_truthy err' = false
     /\ user = JObj {[ "id" := parseInt (id row); "username" := username row;
                       "name" := name row ]})
  /\ (forall err,
        mysqlQuery (data_username data) = Some (err, None) -> js_truthy err = false ->
        login http data = Rejected (JStr "Invalid credentials"))
  /\ (forall err row stored err' res,
        mysqlQuery (data_username data) = Some (err, Some row) -> js_truthy err = false ->
        password row = JStr stored ->
        bcrypt_compare (data_password data) (fix_hash stored) = Some (err', res) ->
        js_truthy err' = false -> res <> JBool true ->
        login http data = Rejected (JStr "Invalid credentials")).
Proof.
  split; [split|split].
  - unfold login, _auth, _invalid.
    destruct (mysqlQuery (data_username data)) as [[err [row|]]|] eqn:Hq;
      try discriminate; destruct (js_truthy err) eqn:Herr; try discriminate.
    destruct (password row) as [| | | |stored| | | |] eqn:Hpw; try discriminate.
    destruct (bcrypt_compare _ _) as [[err' res]|] eqn:Hc; try discriminate.
    destruct (js_truthy err') eqn:Herr'; try discriminate.
    destruct (strict_equals res (JBool true)) eqn:Hres; try discriminate.
    apply strict_equals_true in Hres. subst res.
    intros [= <-]. exists err, row, stored, err'. repeat split; assumption || reflexivity.
  - intros (err & row & stored & err' & Hq & Herr & Hpw & Hc & Herr' & ->).
    unfold login, _auth. now rewrite Hq, Herr, Hpw, Hc, Herr'.
  - intros err Hq Herr. unfold login. now rewrite Hq, Herr.
  - intros err row stored err' res Hq Herr Hpw Hc Herr' Hres.
    unfold login, _auth. rewrite Hq, Herr, Hpw, Hc, Herr'.
    destruct (strict_equals res (JBool true)) eqn:E; [|reflexivity].
    now apply strict_equals_true in E.
Qed.

End login_facts.

(** ** [loadAPI] *)

Section loadAPI_facts.

Import Loader.

Lemma register_union (methods api : gmap string Handler) :
  register methods api = methods ∪ api.
Proof.
  unfold register.
  apply (map_fold_weak_ind (fun r m => r = m ∪ api)).
  - now rewrite (left_id_L ∅ (∪)).
  - intros k h m r _ ->. now rewrite insert_union_l.
Qed.

Lemma lookup_register (methods api : gmap string Handler) (k : string) :
  register methods api !! k
  = match methods !! k with Some h => Some h | None => api !! k end.
Proof.
  rewrite register_union, lookup_union.
  destruct (methods !! k), (api !! k); reflexivity.
Qed.

Lemma loadAPI_app (pre post : list (string * gmap string Handler)) (api : gmap string Handler) :
  loadAPI (pre ++ post) api = loadAPI post (loadAPI pre api).
Proof. unfold loadAPI. apply fold_left_app. Qed.

Lemma loadAPI_lookup_unexported (files : list (string * gmap string Handler))
    (api : gmap string Handler) (k : string) :
  (forall file, In file files -> hidden (fst file) = false -> snd file !! k = None) ->
  loadAPI files api !! k = api !! k.
Proof.
  revert api. induction files as [|file files IH]; intros api Hnone; [reflexivity|].
  change (loadAPI (file :: files) api)
    with (loadAPI files (if hidden (fst file) then api else register (snd file) api)).
  rewrite IH by (intros f Hin; apply Hnone; now right).
  destruct (hidden (fst file)) eqn:Hhidden; [reflexivity|].
  rewrite lookup_register, (Hnone file (or_introl eq_refl) Hhidden). reflexivity.
Qed.

(** X20.  [loadAPI] leaves a name of [instance.API] as it was when no
    loaded file exports it, and a file whose name starts with a dot is
    skipped: the listing without it registers the same methods. *)
Theorem loadAPI_keeps_unexported (pre post : list (string * gmap string Handler))
    (filename : string) (methods api : gmap string Handler) (k : string) :
  hidden filename = true ->
  (forall file, In file (pre ++ post) -> hidden (fst file) = false -> snd file !! k = None) ->
  loadAPI (pre ++ (filename, methods) :: post) api = loadAPI (pre ++ post) api
  /\ loadAPI (pre ++ (filename, methods) :: post) api !! k = api !! k.
Proof.
  intros Hhidden Hnone.
  assert (loadAPI (pre ++ (filename, methods) :: post) api = loadAPI (pre ++ post) api) as E.
  { rewrite !loadAPI_app.
    change (loadAPI ((filename, methods) :: post) ?a)
      with (loadAPI post (if hidden filename then a else register methods a)).
    now rewrite Hhidden. }
  split; [exact E|].
  rewrite E. now apply loadAPI_lookup_unexported.
Qed.

(** X21.  When several loaded files export the same name, the file that
    comes last in the directory listing provides the registered method,
    also over a method that was registered before [loadAPI] ran. *)
Theorem loadAPI_last_export_wins (pre post : list (string * gmap string Handler))
    (filename : string) (methods api : gmap string Handler) (k : string) (handler : Handler) :
  hidden filename = false ->
  methods !! k = Some handler ->
  (forall file, In file post -> hidden (fst file) = false -> snd file !! k = None) ->
  loadAPI (pre ++ (filename, methods) :: post) api !! k = Some handler.
Proof.
  intros Hvisible Hexport Hpost.
  rewrite loadAPI_app.
  change (loadAPI ((filename, methods) :: post) ?a)
    with (loadAPI post (if hidden filename then a else register methods a)).
  rewrite (loadAPI_lookup_unexported post _ k Hpost), Hvisible, lookup_register, Hexport.
  reflexivity.
Qed.

End loadAPI_facts.

(** ** The build script *)

Section build_facts.

Import Build.

Lemma dev_is_not_prod (i : string) :
  String.prefix "dev:" i = true -> String.prefix "prod:" i = false.
Proof.
  destruct i as [|c i]; [discriminate|].
  cbn [String.prefix].
  destruct (Ascii.ascii_dec "d" c) as [<-|]; [|discriminate].
  reflexivity.
Qed.

(** X22.  [_filter] keeps a reference marked [dev:] for the target
    [dist-dev] only and one marked [prod:] for the target [dist] only; a
    reference with neither mark is kept for every target.  So each
    reference is built into at least one of the two targets. *)
Theorem _filter_targets (i : string) :
  (String.prefix "dev:" i = true ->
   forall target, _filter i target = strict_equals target (JStr "dist-dev"))
  /\ (String.prefix "prod:" i = true ->
      forall target, _filter i target = strict_equals target (JStr "dist"))
  /\ (String.prefix "dev:" i = false -> String.prefix "prod:" i = false ->
      forall target, _filter i target = true)
  /\ (_filter i (JStr "dist") = true \/ _filter i (JStr "dist-dev") = true).
Proof.
  split; [|split; [|split]].
  - intros Hdev target. unfold _filter.
    rewrite Hdev, (dev_is_not_prod i Hdev). cbn [andb].
    now destruct (strict_equals target (JStr "dist-dev")).
  - intros Hprod target. unfold _filter. rewrite Hprod.
    destruct (String.prefix "dev:" i) eqn:Hdev.
    { rewrite (dev_is_not_prod i Hdev) in Hprod. discriminate Hprod. }
    cbn [andb]. now destruct (strict_equals target (JStr "dist")).
  - intros Hdev Hprod target. unfold _filter. now rewrite Hdev, Hprod.
  - unfold _filter.
    destruct (String.prefix "dev:" i) eqn:Hdev.
    + right. now rewrite (dev_is_not_prod i Hdev).
    + left. now destruct (String.prefix "prod:" i).
Qed.

Lemma add_overlay_lists (acc : Files) (entry : string * jsval) :
  javascript (add_overlay acc (snd entry))
  = javascript acc ++ contribution "javascript" entry
  /\ stylesheets (add_overlay acc (snd entry))
     = stylesheets acc ++ contribution "stylesheets" entry
  /\ locales (add_overlay acc (snd entry))
     = locales acc ++ contribution "locales" entry.
Proof.
  unfold add_overlay, contribution, concat_field.
  destruct (js_truthy (snd entry)); cbn [javascript stylesheets locales].
  - repeat split;
      match goal with |- context [array_field ?a ?k] => destruct (array_field a k) end;
      cbn; now rewrite ?app_nil_r.
  - now rewrite !app_nil_r.
Qed.

(** X23.  [getBuildFiles] returns, for each of [javascript],
    [stylesheets] and [locales], the list of [opts] followed by the arrays
    of that name of the overlays, in the order of the overlays; an overlay
    that is falsy or whose entry is not an array adds nothing, so the
    lists of [opts] always come first and nothing is dropped. *)
Theorem getBuildFiles_appends (opts : Files) (entries : list (string * jsval)) :
  javascript (getBuildFiles opts (Some entries))
  = javascript opts ++ concat (map (contribution "javascript") entries)
  /\ stylesheets (getBuildFiles opts (Some entries))
     = stylesheets opts ++ concat (map (contribution "stylesheets") entries)
  /\ locales (getBuildFiles opts (Some entries))
     = locales opts ++ concat (map (contribution "locales") entries).
Proof.
  revert opts. induction entries as [|entry entries IH]; intros opts.
  - cbn. now rewrite !app_nil_r.
  - change (getBuildFiles opts (Some (entry :: entries)))
      with (getBuildFiles (add_overlay opts (snd entry)) (Some entries)).
    destruct (IH (add_overlay opts (snd entry))) as (-> & -> & ->).
    destruct (add_overlay_lists opts entry) as (-> & -> & ->).
    cbn [map concat]. now rewrite <- !app_assoc.
Qed.

End build_facts.

(** ** The further theorems at concrete requests *)

(** X1 on a regular user: [bob] holds [fs] but not [curl], so a list of
    both fails with [every] and passes with [some]. *)
Lemma hasGroup_every_or_some_witness :
  hasGroup Demo.JSON_parse (Req Demo.read_osjs) (Val (JArr [JStr "fs"; JStr "curl"]))
           (Val JUndefined) = Normal false
  /\ hasGroup Demo.JSON_parse (Req Demo.read_osjs) (Val (JArr [JStr "fs"; JStr "curl"]))
              (Val (JBool false)) = Normal true.
Proof.
  split.
  - exact (hasGroup_every_or_some Demo.JSON_parse Demo.read_osjs
             [JStr "fs"; JStr "application"] (JStr "fs") [JStr "curl"] (Val JUndefined)
             eq_refl eq_refl).
  - exact (hasGroup_every_or_some Demo.JSON_parse Demo.read_osjs
             [JStr "fs"; JStr "application"] (JStr "fs") [JStr "curl"] (Val (JBool false))
             eq_refl eq_refl).
Defined.

(** X2 on a session whose groups are the string ["fs,administrators"]. *)
Lemma hasGroup_substring_admin_witness :
  hasGroup Cases.JSON_parse (Req (Demo.post_fs "write" (Demo.path_arg "home:///a") Cases.erin))
           (Val (JArr [JStr "staff"])) (Val JUndefined) = Normal true.
Proof.
  apply (hasGroup_substring_admin Cases.JSON_parse
           (Demo.post_fs "write" (Demo.path_arg "home:///a") Cases.erin)
           "fs,administrators"); reflexivity.
Defined.

(** X3 on a session whose groups are the text [true]. *)
Lemma hasGroup_malformed_groups_throw_witness :
  exists message,
    hasGroup Demo.JSON_parse
             (Req (Demo.post_fs "read" (Demo.path_arg "home:///a") Cases.dave))
             (Val (JArr [JStr "fs"])) (Val JUndefined) = Throw (TypeError message)
    /\ result (checkApiPermission Demo.JSON_parse Demo.instance
                 (Demo.post_fs "read" (Demo.path_arg "home:///a") Cases.dave) Tfs
                 (fs_options (Demo.post_fs "read" (Demo.path_arg "home:///a") Cases.dave)))
       = Rejected (TypeError message).
Proof.
  apply (hasGroup_malformed_groups_throw Demo.JSON_parse Demo.instance
           (Demo.post_fs "read" (Demo.path_arg "home:///a") Cases.dave) (JBool true)).
  - reflexivity.
  - reflexivity.
  - discriminate.
  - discriminate.
Defined.


(** X5 on a read from the read-only mount [shared]. *)
Lemma enabled_mount_allows_witness :
  checkMountPermission Demo.JSON_parse Demo.parseVirtualPath Cases.instance
    (Demo.post_fs "read" (Demo.path_arg "shared:///report.txt") Demo.bob) Tfs
    (fs_options (Demo.post_fs "read" (Demo.path_arg "shared:///report.txt") Demo.bob))
  = ([EvCheck CkMount Passed], Resolved JUndefined).
Proof.
  apply (enabled_mount_allows Demo.JSON_parse Demo.parseVirtualPath
           Cases.instance _ _ "shared"
           {[ "shared" := JObj {[ "ro" := JBool true ]};
              "backup" := JObj {[ "enabled" := JBool false ]};
              "broken" := JNull;
              "home" := JStr "/home/%USERNAME%" ]}
           {[ "ro" := JBool true ]}).
  - reflexivity.
  - reflexivity.
  - reflexivity.
  - vm_compute. discriminate.
  - right. intros m [= <-]. vm_compute. intuition discriminate.
Defined.



(** X8 on the user who has [default/Settings] blacklisted, and on one who
    has not. *)
Lemma blacklist_decides_witness :
  checkPackagePermission Demo.instance (Demo.package_of Demo.guest) Tpackage
    (package_options "default/Settings")
  = ([EvGetBlacklist (JStr "guest"); EvCheck CkPackage Failed],
     Rejected (JStr "Access Denied!"))
  /\ checkPackagePermission Demo.instance (Demo.package_of Demo.bob) Tpackage
       (package_options "default/Settings")
     = ([EvGetBlacklist (JStr "bob"); EvCheck CkPackage Passed], Resolved JUndefined).
Proof.
  split.
  - exact (blacklist_decides Demo.instance (Demo.package_of Demo.guest)
             (package_options "default/Settings") [JStr "default/Settings"]
             "default/Settings" eq_refl eq_refl).
  - exact (blacklist_decides Demo.instance (Demo.package_of Demo.bob)
             (package_options "default/Settings") [] "default/Settings" eq_refl eq_refl).
Defined.

(** X9 on an anonymous write to the read-only mount, under an
    authenticator whose hook resolves with [false]. *)
Lemma hook_waives_checks_witness :
  checkPermission Demo.JSON_parse Demo.parseVirtualPath (Cases.with_auth Cases.lenient)
    (Demo.post_fs "write" (Demo.path_arg "shared:///report.txt") Demo.no_session) Tfs
    (fs_options (Demo.post_fs "write" (Demo.path_arg "shared:///report.txt") Demo.no_session))
  = ([EvCheck CkAuthenticator Passed], Resolved JUndefined).
Proof.
  apply (hook_waives_checks Demo.JSON_parse Demo.parseVirtualPath
           (Cases.with_auth Cases.lenient) _ Tfs _ (JBool false)).
  - reflexivity.
  - discriminate.
  - reflexivity.
Defined.

(** X10 on [default/Settings] and [main.js]. *)
Lemma package_match_round_trip_witness :
  package_match "/packages/default/Settings/main.js" = Some ("default/Settings", "main.js")
  /\ package_match "packages/default/Settings/main.js" = Some ("default/Settings", "main.js").
Proof.
  apply (package_match_round_trip "default/Settings" "main.js"); reflexivity.
Defined.



(** X14 on a read by [bob] over a transport that fails. *)
Lemma transport_failure_is_403_witness :
  trace (request Demo.JSON_parse Demo.parseVirtualPath Cases.failing_vfs Demo.instance
           (Demo.post_fs "read" (Demo.path_arg "home:///a.txt") Demo.bob))
  = [EvInitSession; EvCheck CkSession Passed; EvCheck CkAuthenticator Passed;
     EvCheck CkApi Passed; EvCheck CkMount Passed; EvCheck CkPackage Passed;
     EvVfsRequest "read" (Demo.path_arg "home:///a.txt");
     EvRespondJson (JStr "ENOENT") (Some (JBool false)) (Some 403%Z)].
Proof.
  apply (transport_failure_is_403 Demo.JSON_parse Demo.parseVirtualPath Cases.failing_vfs
           Demo.instance (Demo.post_fs "read" (Demo.path_arg "home:///a.txt") Demo.bob)
           (JStr "ENOENT") (JBool true) JUndefined); reflexivity.
Defined.

(** X15 on [bob] calling the API method [application]. *)
Lemma api_result_is_passed_through_witness :
  Demo.run (Demo.post_api "application" (JStr "hello") Demo.bob)
  = [EvInitSession; EvCheck CkSession Passed; EvCheck CkAuthenticator Passed;
     EvCheck CkApi Passed; EvCheck CkMount Passed; EvCheck CkPackage Passed;
     EvApiHandler "application" (JStr "hello");
     EvRespondJson JNull (Some (JStr "hello")) None].
Proof.
  apply (api_result_is_passed_through Demo.JSON_parse Demo.parseVirtualPath
           Demo.vfs_request Demo.instance
           (Demo.post_api "application" (JStr "hello") Demo.bob)
           Demo.echo (JStr "hello") (JBool true) JUndefined); reflexivity.
Defined.

(** X16 on the administrator's write to the read-only mount. *)
Lemma vfs_and_api_requests_stay_on_their_route_witness :
  List.filter (fun ev => is_storage_call ev || is_served ev) (Demo.run Demo.write_shared) = [].
Proof.
  apply (vfs_and_api_requests_stay_on_their_route Demo.JSON_parse Demo.parseVirtualPath
           Demo.vfs_request Demo.instance Demo.write_shared).
  left. reflexivity.
Defined.

(** X17 on an anonymous write, under an authenticator that rejects the
    session without a reason. *)
Lemma rejection_without_reason_is_silent_witness :
  trace (request Demo.JSON_parse Demo.parseVirtualPath Demo.vfs_request
           (Cases.with_auth Cases.silent) Demo.anonymous_write)
  = [EvInitSession; EvCheck CkSession Failed].
Proof.
  apply (rejection_without_reason_is_silent Demo.JSON_parse Demo.parseVirtualPath
           Demo.vfs_request (Cases.with_auth Cases.silent) Demo.anonymous_write
           JUndefined (JBool true)).
  - reflexivity.
  - reflexivity.
  - reflexivity.
  - now left.
Defined.

(** X18 on a hash as PHP's [password_hash] writes it. *)
Lemma fix_hash_rewrites_prefix_witness :
  mysql_login.fix_hash "$2y$10$abcdefghijklmnopqrstuv" = "$2a$10$abcdefghijklmnopqrstuv"
  /\ mysql_login.fix_hash "$2Y$10$abcdefghijklmnopqrstuv" = "$2a$10$abcdefghijklmnopqrstuv"
  /\ String.length (mysql_login.fix_hash "$2y") = 3
  /\ mysql_login.fix_hash (mysql_login.fix_hash "$2y") = mysql_login.fix_hash "$2y".
Proof.
  apply (fix_hash_rewrites_prefix "$2y" "$10$abcdefghijklmnopqrstuv").
  - discriminate.
  - reflexivity.
Defined.

(** X20 on a listing with a hidden file that exports [login]. *)
Lemma loadAPI_keeps_unexported_witness :
  Loader.loadAPI [("fs.js", {[ "fs" := Demo.echo ]});
                  (".login.js.swp", {[ "login" := Demo.echo ]});
                  ("settings.js", {[ "settings" := Demo.echo ]})] ∅
  = Loader.loadAPI [("fs.js", {[ "fs" := Demo.echo ]});
                    ("settings.js", {[ "settings" := Demo.echo ]})] ∅
  /\ Loader.loadAPI [("fs.js", {[ "fs" := Demo.echo ]});
                     (".login.js.swp", {[ "login" := Demo.echo ]});
                     ("settings.js", {[ "settings" := Demo.echo ]})] ∅ !! "login"
     = None.
Proof.
  refine (loadAPI_keeps_unexported [("fs.js", {[ "fs" := Demo.echo ]})]
            [("settings.js", {[ "settings" := Demo.echo ]})]
            ".login.js.swp" {[ "login" := Demo.echo ]} ∅ "login" eq_refl _).
  intros file [<-|[<-|[]]] _; reflexivity.
Defined.

(** X21 on three files that export [curl], the last of them hidden. *)
Lemma loadAPI_last_export_wins_witness :
  Loader.loadAPI [("a.js", {[ "curl" := fun _ _ => Resolved (JStr "a") ]});
                  ("b.js", {[ "curl" := fun _ _ => Resolved (JStr "b") ]});
                  (".c.js", {[ "curl" := fun _ _ => Resolved (JStr "c") ]});
                  ("d.js", {[ "fs" := Demo.echo ]})]
                 {[ "curl" := Demo.echo ]} !! "curl"
  = Some (fun _ _ => Resolved (JStr "b")).
Proof.
  refine (loadAPI_last_export_wins
            [("a.js", {[ "curl" := fun _ _ => Resolved (JStr "a") ]})]
            [(".c.js", {[ "curl" := fun _ _ => Resolved (JStr "c") ]});
             ("d.js", {[ "fs" := Demo.echo ]})]
            "b.js" {[ "curl" := fun _ _ => Resolved (JStr "b") ]}
            {[ "curl" := Demo.echo ]} "curl" _ eq_refl eq_refl _).
  intros file [<-|[<-|[]]] H; [discriminate H|reflexivity].
Defined.

(** ** [login] on a table with one user *)

Example login_alice :
  mysql_login.login Cases.parseInt Cases.mysqlQuery Cases.bcrypt_compare
    (Demo.post_api "login" JNull Demo.no_session)
    {| mysql_login.data_username := JStr "alice"; mysql_login.data_password := JStr "secret" |}
  = Resolved (JObj {[ "id" := JNum 7; "username" := JStr "alice"; "name" := JStr "Alice" ]}).
Proof. reflexivity. Qed.

Example login_wrong_password :
  mysql_login.login Cases.parseInt Cases.mysqlQuery Cases.bcrypt_compare
    (Demo.post_api "login" JNull Demo.no_session)
    {| mysql_login.data_username := JStr "alice"; mysql_login.data_password := JStr "guess" |}
  = Rejected (JStr "Invalid credentials").
Proof. reflexivity. Qed.

Example login_unknown_user :
  mysql_login.login Cases.parseInt Cases.mysqlQuery Cases.bcrypt_compare
    (Demo.post_api "login" JNull Demo.no_session)
    {| mysql_login.data_username := JStr "mallory"; mysql_login.data_password := JStr "secret" |}
  = Rejected (JStr "Invalid credentials").
Proof. reflexivity. Qed.

(** ** The build script on a configuration with two overlays *)

Example getBuildFiles_example :
  Build.javascript
    (Build.getBuildFiles
       {| Build.javascript := [JStr "core.js"]; Build.stylesheets := [];
          Build.locales := [] |}
       (Some [("first", JObj {[ "javascript" := JArr [JStr "dev:debug.js"] ]});
              ("second", JNull);
              ("third", JObj {[ "javascript" := JStr "not an array";
                                "locales" := JArr [JStr "en_EN.js"] ]})]))
  = [JStr "core.js"; JStr "dev:debug.js"].
Proof. reflexivity. Qed.

Example _filter_example :
  Build._filter "dev:debug.js" (JStr "dist") = false
  /\ Build._filter "dev:debug.js" (JStr "dist-dev") = true
  /\ Build._filter "prod:min.js" (JStr "dist") = true
  /\ Build._filter "core.js" JUndefined = true.
Proof. repeat split. Qed.

(** ** [String(v)] and the line terminators on concrete values *)

Example String_of_errors :
  js_ToString (JError "Error" "") = "Error"
  /\ js_ToString (JError "" "disk full") = "disk full"
  /\ js_ToString (JError "TypeError" "x is not a function") = "TypeError: x is not a function".
Proof. repeat split. Qed.

Example String_of_numbers :
  map Number_toString [0; -5; 9007199254740993 - 1; 2 ^ 60; 10 ^ 21; 2 ^ 70;
                       99999999999999991611392]%Z
  = ["0"; "-5"; "9007199254740992"; "1152921504606847000"; "1e+21";
     "1.1805916207174113e+21"; "1e+23"].
Proof. vm_compute. reflexivity. Qed.

(** The group of the package pattern stops at U+2028. *)
Example package_match_separator :
  package_match ("packages/a/b/c"
                 +:+ String "226" (String "128" (String "168" "d/e")))
  = Some ("a/b", "c").
Proof. reflexivity. Qed.

(** A stored value with U+2028 after the prefix is left as it is. *)
Example fix_hash_separator :
  mysql_login.fix_hash ("$2y$10" +:+ String "226" (String "128" (String "168" "abc")))
  = "$2y$10" +:+ String "226" (String "128" (String "168" "abc")).
Proof. reflexivity. Qed.

(** A reasonless rejection of the session check leaves the request for a
    package unanswered. *)
Example package_silent_example :
  trace (request Demo.JSON_parse Demo.parseVirtualPath Demo.vfs_request
           (Cases.with_auth Cases.silent) (Demo.package_of Demo.bob))
  = [EvInitSession; EvCheck CkSession Failed].
Proof. reflexivity. Qed.

(** Under an authenticator whose hook resolves with [false] the
    administrator's write to the read-only mount reaches the transport. *)
Example waived_write_example :
  trace (request Demo.JSON_parse Demo.parseVirtualPath Demo.vfs_request
           (Cases.with_auth Cases.lenient) Demo.write_shared)
  = [EvInitSession; EvCheck CkSession Passed; EvCheck CkAuthenticator Passed;
     EvVfsRequest "write" (Demo.path_arg "shared:///report.txt");
     EvRespondJson JNull (Some (JBool true)) None].
Proof. reflexivity. Qed.
